(** * EVC mode application workflow (main.go)

    A shallow embedding of [main], [doThings] and [createClient] of
    main.go.  The govmomi library and the vCenter server behind it are not
    part of the program: every library call that reaches the server is a
    field of the record [Remote], a transition of an arbitrary server
    state.  The program itself is written in a small monad that threads the
    process state: the environment variables, the server, the log of the
    library calls made so far (with their answers) and the text written to
    the standard streams. *)

From Stdlib Require Import String Ascii List Bool Arith.
Import ListNotations.
Local Open Scope list_scope.
Local Open Scope string_scope.

(** ** Go values *)

(** A Go [error] is kept as its text, the value of [err.Error()], which is
    all the program ever does with one: return it or print it with [%s]. *)
Definition error : Type := string.

(** A [(value, error)] pair of results: [inl err] when [err != nil]. *)
Definition result (A : Type) : Type := (error + A)%type.

(** The line feed written by [fmt.Println] and by the [\n] of a format. *)
Definition newline : string := String (ascii_of_nat 10) EmptyString.

(** The double quote that the mask line escapes. *)
Definition dquote : string := String (ascii_of_nat 34) EmptyString.

(** [context.Context]: [context.Background()] and the derived contexts that
    carry a cancellation signal or a deadline. *)
Inductive Context : Type :=
| Background
| WithCancel (parent : Context)
| WithDeadline (parent : Context) (deadline : nat).

(** Whether a context can ever be cancelled: [context.Background()] is never
    cancelled and has no deadline, a derived context can be. *)
Definition cancellable (ctx : Context) : bool :=
  match ctx with
  | Background => false
  | WithCancel _ => true
  | WithDeadline _ _ => true
  end.

(** ** net/url *)
Module url.
Record Userinfo : Type := UserPassword { username : string; password : string }.
Record URL : Type :=
  { Scheme : string; User : option Userinfo; Host : string; Path : string }.
End url.

(** ** vim25/types *)
Module types.
Record ManagedObjectReference : Type :=
  { Type_ : string; Value_ : string }.

Record HostFeatureMask : Type :=
  { Key : string; FeatureName : string; Value : string }.

Record ElementDescription : Type :=
  { Label : string; Summary : string; ElementDescription_Key : string }.

Record EVCMode : Type :=
  { ElementDescription_ : ElementDescription;
    FeatureMask : list HostFeatureMask }.

Record ClusterEVCManagerEVCState : Type :=
  { SupportedEVCMode : list EVCMode }.

Record EvcManager : Type := { EvcManager_This : ManagedObjectReference }.

(** [Returnval] is a pointer in the library: [None] is [nil]. *)
Record EvcManagerResponse : Type :=
  { EvcManager_Returnval : option ManagedObjectReference }.

(** [CompleteMasks] is a [*bool]: [None] is [nil] (unset). *)
Record ApplyEvcModeVM_Task : Type :=
  { This : ManagedObjectReference;
    Mask : list HostFeatureMask;
    CompleteMasks : option bool }.

Record ApplyEvcModeVM_TaskResponse : Type :=
  { Returnval : ManagedObjectReference }.
End types.

(** ** vim25/mo *)
Module mo.
Record ClusterEVCManager : Type :=
  { EvcState : types.ClusterEVCManagerEVCState }.
End mo.

(** ** Library handles

    The clients, the finder, the collector and the task are values of the
    library; they are kept as records of what the program or the library
    puts into them. *)
Module soap.
Record Client : Type := NewClient { u : url.URL; insecure : bool }.
Record RoundTripper : Type := { transport : nat }.
End soap.

Module vim25.
Record Client : Type :=
  { soapClient : soap.Client; RoundTripper : soap.RoundTripper }.
End vim25.

Module session.
Record Manager : Type := NewManager { client : vim25.Client }.
End session.

Module govmomi.
Record Client : Type :=
  { Client_ : vim25.Client; SessionManager : session.Manager }.
End govmomi.

Module object.
Record Datacenter : Type := { Datacenter_ref : types.ManagedObjectReference }.
Record VirtualMachine : Type := { VirtualMachine_ref : types.ManagedObjectReference }.
Record ClusterComputeResource : Type :=
  { ClusterComputeResource_ref : types.ManagedObjectReference }.
Record Task : Type :=
  NewTask { Task_client : vim25.Client; Task_ref : types.ManagedObjectReference }.

(** The [object.Reference] interface. *)
Class Reference (A : Type) : Type :=
  { Reference_ : A -> types.ManagedObjectReference }.
#[global] Instance Reference_VirtualMachine : Reference VirtualMachine :=
  {| Reference_ := VirtualMachine_ref |}.
#[global] Instance Reference_ClusterComputeResource : Reference ClusterComputeResource :=
  {| Reference_ := ClusterComputeResource_ref |}.
End object.

Module find.
(** A finder holds its client and the datacenter that scopes its lookups:
    the default one its constructor found, if any, until [SetDatacenter]
    is called on it. *)
Record Finder : Type :=
  { client : vim25.Client; dc : option object.Datacenter }.
Definition SetDatacenter (f : Finder) (d : object.Datacenter) : Finder :=
  {| client := client f; dc := Some d |}.
End find.

Module property.
Record Collector : Type := DefaultCollector { client : vim25.Client }.
End property.

(** ** The library calls that reach the server *)

(** One entry of the call log: the arguments as the program passed them and
    the answer it got.  [find.NewFinder] is a call like the others: called
    with the client alone, as at lines 52 and 65, the constructor asks the
    server for its default datacenter under a [context.Background()] of its
    own and keeps it in the finder; it drops the error of that lookup, so
    its answer is the datacenter found, [None] when the server has none or
    more than one. *)
Inductive Call : Type :=
| Call_NewClient (ctx : Context) (sc : soap.Client) (r : result vim25.Client)
| Call_Login (ctx : Context) (m : session.Manager) (u : option url.Userinfo)
    (r : option error)
| Call_NewFinder (c : vim25.Client) (dcDefault : option object.Datacenter)
| Call_Datacenter (ctx : Context) (f : find.Finder) (path : string)
    (r : result object.Datacenter)
| Call_VirtualMachine (ctx : Context) (f : find.Finder) (path : string)
    (r : result object.VirtualMachine)
| Call_ClusterComputeResourceOrDefault (ctx : Context) (f : find.Finder)
    (path : string) (r : result object.ClusterComputeResource)
| Call_EvcManager (ctx : Context) (rt : soap.RoundTripper) (req : types.EvcManager)
    (r : result types.EvcManagerResponse)
| Call_RetrieveOne (ctx : Context) (pc : property.Collector)
    (obj : types.ManagedObjectReference) (ps : option (list string))
    (r : result mo.ClusterEVCManager)
| Call_ApplyEvcModeVM_Task (ctx : Context) (c : vim25.Client)
    (req : types.ApplyEvcModeVM_Task) (r : result types.ApplyEvcModeVM_TaskResponse)
| Call_Wait (ctx : Context) (t : object.Task) (r : option error).

(** The server and the library in front of it: each call answers from the
    current server state and moves it.  [find_DefaultDatacenter] is the
    lookup that [find.NewFinder] makes. *)
Record Remote (S : Type) : Type :=
  { vim25_NewClient : Context -> soap.Client -> S -> result vim25.Client * S;
    Manager_Login : Context -> session.Manager -> option url.Userinfo -> S ->
                    option error * S;
    find_DefaultDatacenter : vim25.Client -> S -> option object.Datacenter * S;
    Finder_Datacenter : Context -> find.Finder -> string -> S ->
                        result object.Datacenter * S;
    Finder_VirtualMachine : Context -> find.Finder -> string -> S ->
                            result object.VirtualMachine * S;
    Finder_ClusterComputeResourceOrDefault :
      Context -> find.Finder -> string -> S ->
      result object.ClusterComputeResource * S;
    methods_EvcManager : Context -> soap.RoundTripper -> types.EvcManager -> S ->
                         result types.EvcManagerResponse * S;
    Collector_RetrieveOne : Context -> property.Collector ->
                            types.ManagedObjectReference -> option (list string) ->
                            S -> result mo.ClusterEVCManager * S;
    methods_ApplyEvcModeVM_Task : Context -> vim25.Client ->
                                  types.ApplyEvcModeVM_Task -> S ->
                                  result types.ApplyEvcModeVM_TaskResponse * S;
    Task_Wait : Context -> object.Task -> S -> option error * S }.

Arguments vim25_NewClient {S}.
Arguments Manager_Login {S}.
Arguments find_DefaultDatacenter {S}.
Arguments Finder_Datacenter {S}.
Arguments Finder_VirtualMachine {S}.
Arguments Finder_ClusterComputeResourceOrDefault {S}.
Arguments methods_EvcManager {S}.
Arguments Collector_RetrieveOne {S}.
Arguments methods_ApplyEvcModeVM_Task {S}.
Arguments Task_Wait {S}.

(** ** The process *)

Inductive Stream : Type := Stdout | Stderr.

(** The environment variables: [None] for a variable that is not set. *)
Definition Environ : Type := string -> option string.

Record Process (S : Type) : Type :=
  { environ : Environ;
    server : S;
    calls : list Call;
    written : list (Stream * string) }.

Arguments environ {S}.
Arguments server {S}.
Arguments calls {S}.
Arguments written {S}.

(** How a computation ends: it returns, the process exits with a code
    ([os.Exit]), or it panics (a nil pointer is dereferenced). *)
Inductive Outcome (A : Type) : Type :=
| Returns (a : A)
| Exits (code : nat)
| Panics.

Arguments Returns {A}.
Arguments Exits {A}.
Arguments Panics {A}.

Definition M (S A : Type) : Type := Process S -> Outcome A * Process S.

Definition ret {S A} (a : A) : M S A := fun p => (Returns a, p).

Definition bind {S A B} (m : M S A) (k : A -> M S B) : M S B :=
  fun p =>
    match m p with
    | (Returns a, p') => k a p'
    | (Exits code, p') => (Exits code, p')
    | (Panics, p') => (Panics, p')
    end.

Declare Scope go_scope.
Delimit Scope go_scope with go.
Notation "x <- m ;; k" := (bind m (fun x => k))
  (at level 61, m at next level, right associativity) : go_scope.
Notation "m ;; k" := (bind m (fun _ => k))
  (at level 61, right associativity) : go_scope.
Local Open Scope go_scope.

Definition os_Exit {S A} (code : nat) : M S A := fun p => (Exits code, p).

Definition panic {S A} : M S A := fun p => (Panics, p).

(** The value [os.Getenv] retrieves: the empty string for a variable that
    is not set. *)
Definition getenv (env : Environ) (key : string) : string :=
  match env key with
  | Some v => v
  | None => EmptyString
  end.

Definition os_Getenv {S} (key : string) : M S string :=
  fun p => (Returns (getenv (environ p) key), p).

Definition write {S} (to : Stream) (text : string) : M S unit :=
  fun p =>
    (Returns tt,
     {| environ := environ p; server := server p; calls := calls p;
        written := (written p ++ [(to, text)])%list |}).

Definition fmt_Println {S} (s : string) : M S unit := write Stdout (s ++ newline).
Definition fmt_Printf {S} (s : string) : M S unit := write Stdout s.
Definition fmt_Fprintf {S} (to : Stream) (s : string) : M S unit := write to s.

(** A library call: the server answers and moves, the call is logged. *)
Definition remote {S A} (op : S -> A * S) (entry : A -> Call) : M S A :=
  fun p =>
    let (a, s') := op (server p) in
    (Returns a,
     {| environ := environ p; server := s'; calls := (calls p ++ [entry a])%list;
        written := written p |}).

(** Dereferencing a pointer: a panic on [nil]. *)
Definition deref {S A} (ptr : option A) : M S A :=
  match ptr with
  | Some a => ret a
  | None => panic
  end.

(** ** The program *)

(** The flags as given on the command line, once [flag.Parse] has accepted
    it: [None] for a flag that was not given. *)
Record CommandLine : Type :=
  { arg_dc : option string;
    arg_cluster : option string;
    arg_vm : option string;
    arg_evcmode : option string }.

(** [flag.String(name, value, usage)] after [flag.Parse]: the value given,
    the default [value] otherwise. *)
Definition flag_String (given : option string) (value : string) : string :=
  match given with
  | Some v => v
  | None => value
  end.

(** [if err != nil { return err }] after a call with two results. *)
Notation "x <-? m ;; k" :=
  (bind m (fun r => match r with
                    | inl err => ret (Some err)
                    | inr x => k
                    end))
  (at level 61, m at next level, right associativity) : go_scope.

Section Program.

Context {S : Type} (R : Remote S).

(** [createClient], lines 118-142. *)
Definition createClient (ctx : Context) : M S (result govmomi.Client) :=
  host <- os_Getenv "GOVC_URL" ;;
  let u := {| url.Scheme := "https"; url.User := None;
              url.Host := host; url.Path := "/sdk" |} in
  username <- os_Getenv "GOVC_USERNAME" ;;
  password <- os_Getenv "GOVC_PASSWORD" ;;
  let u := {| url.Scheme := url.Scheme u;
              url.User := Some (url.UserPassword username password);
              url.Host := url.Host u; url.Path := url.Path u |} in
  let soapClient := soap.NewClient u true in
  r <- remote (vim25_NewClient R ctx soapClient) (Call_NewClient ctx soapClient) ;;
  match r with
  | inl err =>
      ret (inl ("could not create new vim25 govmomi client, did you set GOVC_USERNAME, GOVC_PASSWORD, GOVC_URL?: " ++ err))
  | inr vimClient =>
      let m := session.NewManager vimClient in
      err <- remote (Manager_Login R ctx m (url.User u))
                    (Call_Login ctx m (url.User u)) ;;
      match err with
      | Some err =>
          ret (inl ("could not login via vim25 session manager, did you set GOVC_USERNAME, GOVC_PASSWORD, GOVC_URL?: " ++ err))
      | None =>
          let c := {| govmomi.Client_ := vimClient; govmomi.SessionManager := m |} in
          ret (inr c)
      end
  end.

(** The loop of lines 86-92: [masks] starts [nil] and takes the feature
    masks of the first supported mode whose key is [evcMode], where the
    loop breaks. *)
Fixpoint scanSupportedEVCMode (modes : list types.EVCMode) (evcMode : string)
    (masks : list types.HostFeatureMask) : list types.HostFeatureMask :=
  match modes with
  | [] => masks
  | e :: rest =>
      if types.ElementDescription_Key (types.ElementDescription_ e) =? evcMode
      then types.FeatureMask e
      else scanSupportedEVCMode rest evcMode masks
  end.

(** Lines 86-95: the scan and the check of its result, [inl] for the error
    returned at line 94. *)
Definition resolveMasks (modes : list types.EVCMode) (evcMode : string)
    : result (list types.HostFeatureMask) :=
  let masks := scanSupportedEVCMode modes evcMode [] in
  if Nat.eqb (List.length masks) 0
  then inl ("error finding EVC feature masks for " ++ evcMode)
  else inr masks.

(** The text of line 97 for one mask. *)
Definition maskLine (mask : types.HostFeatureMask) : string :=
  "mask << VimSdk::Vim::Host::FeatureMask.new({:key => " ++ dquote
    ++ types.Key mask ++ dquote ++ ", :feature_name => " ++ dquote
    ++ types.FeatureName mask ++ dquote ++ ", :value => " ++ dquote
    ++ types.Value mask ++ dquote ++ "})".

(** The loop of lines 96-98. *)
Fixpoint printMasks (masks : list types.HostFeatureMask) : M S unit :=
  match masks with
  | [] => ret tt
  | mask :: rest => fmt_Println (maskLine mask) ;; printMasks rest
  end.

(** [find.NewFinder(client)]: a finder on [client] that holds the default
    datacenter of the server, if it has one. *)
Definition find_NewFinder (client : vim25.Client) : M S find.Finder :=
  dcDefault <- remote (find_DefaultDatacenter R client) (Call_NewFinder client) ;;
  ret {| find.client := client; find.dc := dcDefault |}.

(** [doThings], lines 45-116: [None] is the [nil] error. *)
Definition doThings (ctx : Context) (dc cluster evcMode vmName : string)
    : M S (option error) :=
  c <-? createClient ctx ;;
  finder <- find_NewFinder (govmomi.Client_ c) ;;
  dcObj <-? remote (Finder_Datacenter R ctx finder dc)
                   (Call_Datacenter ctx finder dc) ;;
  let finder := find.SetDatacenter finder dcObj in
  vm <-? remote (Finder_VirtualMachine R ctx finder vmName)
                (Call_VirtualMachine ctx finder vmName) ;;
  clusterFinder <- find_NewFinder (govmomi.Client_ c) ;;
  clusterObj <-? remote (Finder_ClusterComputeResourceOrDefault R ctx
                           clusterFinder cluster)
                        (Call_ClusterComputeResourceOrDefault ctx
                           clusterFinder cluster) ;;
  let evcReq := {| types.EvcManager_This := object.Reference_ clusterObj |} in
  evcMgrRes <-? remote (methods_EvcManager R ctx
                          (vim25.RoundTripper (govmomi.Client_ c)) evcReq)
                       (Call_EvcManager ctx
                          (vim25.RoundTripper (govmomi.Client_ c)) evcReq) ;;
  let pc := property.DefaultCollector (govmomi.Client_ c) in
  mgrRef <- deref (types.EvcManager_Returnval evcMgrRes) ;;
  evcMgr <-? remote (Collector_RetrieveOne R ctx pc mgrRef None)
                    (Call_RetrieveOne ctx pc mgrRef None) ;;
  match resolveMasks (types.SupportedEVCMode (mo.EvcState evcMgr)) evcMode with
  | inl err => ret (Some err)
  | inr masks =>
      printMasks masks ;;
      let isComplete := true in
      let req := {| types.This := object.Reference_ vm;
                    types.Mask := masks;
                    types.CompleteMasks := Some isComplete |} in
      fmt_Printf ("Applying EVC mode " ++ evcMode ++ " to " ++ vmName) ;;
      res <-? remote (methods_ApplyEvcModeVM_Task R ctx (govmomi.Client_ c) req)
                     (Call_ApplyEvcModeVM_Task ctx (govmomi.Client_ c) req) ;;
      let t := object.NewTask (govmomi.Client_ c) (types.Returnval res) in
      remote (Task_Wait R ctx t) (Call_Wait ctx t)
  end.

(** [main], lines 21-43. *)
Definition main (args : CommandLine) : M S unit :=
  let dc := flag_String (arg_dc args) EmptyString in
  let cluster := flag_String (arg_cluster args) EmptyString in
  let vmName := flag_String (arg_vm args) EmptyString in
  let evcMode := flag_String (arg_evcmode args) "intel-sandybridge" in
  if (dc =? EmptyString) || (cluster =? EmptyString) || (vmName =? EmptyString)
  then fmt_Println "dc, cluster, and vm are required flags" ;; os_Exit 1
  else
    password <- os_Getenv "GOVC_PASSWORD" ;;
    username <- os_Getenv "GOVC_USERNAME" ;;
    host <- os_Getenv "GOVC_URL" ;;
    if (password =? EmptyString) || (username =? EmptyString) || (host =? EmptyString)
    then fmt_Println "GOVC_PASSWORD, GOVC_USERNAME, and GOVC_URL are required env vars" ;;
         os_Exit 1
    else
      err <- doThings Background dc cluster evcMode vmName ;;
      match err with
      | Some err =>
          fmt_Fprintf Stderr ("error: " ++ err ++ newline) ;; os_Exit 1
      | None => ret tt
      end.

End Program.

(** ** Runs and what is observed of them *)

(** A process about to start: nothing was called or written yet. *)
Definition start {S : Type} (env : Environ) (s : S) : Process S :=
  {| environ := env; server := s; calls := []; written := [] |}.

(** A parameter the operator did not supply: absent or empty. *)
Definition missing (v : option string) : Prop :=
  v = None \/ v = Some EmptyString.

(** [needle] occurs in [text] verbatim. *)
Definition Contains (needle text : string) : Prop :=
  exists before after, text = before ++ needle ++ after.

(** The context a library call was made under: the one the program
    passed, and for [find.NewFinder], which takes none, the
    [context.Background()] its lookup runs under. *)
Definition call_ctx (e : Call) : Context :=
  match e with
  | Call_NewClient ctx _ _ => ctx
  | Call_Login ctx _ _ _ => ctx
  | Call_NewFinder _ _ => Background
  | Call_Datacenter ctx _ _ _ => ctx
  | Call_VirtualMachine ctx _ _ _ => ctx
  | Call_ClusterComputeResourceOrDefault ctx _ _ _ => ctx
  | Call_EvcManager ctx _ _ _ => ctx
  | Call_RetrieveOne ctx _ _ _ _ => ctx
  | Call_ApplyEvcModeVM_Task ctx _ _ _ => ctx
  | Call_Wait ctx _ _ => ctx
  end.

(** What the loop of lines 96-98 writes: one line per mask, in order. *)
Definition maskOutput (masks : list types.HostFeatureMask) : list (Stream * string) :=
  map (fun mask => (Stdout, maskLine mask ++ newline)) masks.

(** The key of a supported mode, [e.ElementDescription.Key]. *)
Definition modeKey (e : types.EVCMode) : string :=
  types.ElementDescription_Key (types.ElementDescription_ e).

(** The first entry of the table whose key is [n], if any: [Some e] when
    [e] has the key and no entry before it has, [None] when no entry has. *)
Inductive FirstMatch (n : string) : list types.EVCMode -> option types.EVCMode -> Prop :=
| FirstMatch_none (modes : list types.EVCMode) :
    (forall x, In x modes -> modeKey x <> n) ->
    FirstMatch n modes None
| FirstMatch_some (before : list types.EVCMode) (e : types.EVCMode)
    (after : list types.EVCMode) :
    (forall x, In x before -> modeKey x <> n) ->
    modeKey e = n ->
    FirstMatch n (before ++ e :: after)%list (Some e).

(** The two messages of the checks at the top of [main]. *)
Definition flagsRequired : string := "dc, cluster, and vm are required flags".
Definition envRequired : string :=
  "GOVC_PASSWORD, GOVC_USERNAME, and GOVC_URL are required env vars".

(** The library function a call is a call of. *)
Inductive Kind : Type :=
| NewClient | Login | NewFinder | Datacenter | VirtualMachine
| ClusterComputeResourceOrDefault | EvcManager | RetrieveOne
| ApplyEvcModeVM_Task | Wait.

Definition call_kind (e : Call) : Kind :=
  match e with
  | Call_NewClient _ _ _ => NewClient
  | Call_Login _ _ _ _ => Login
  | Call_NewFinder _ _ => NewFinder
  | Call_Datacenter _ _ _ _ => Datacenter
  | Call_VirtualMachine _ _ _ _ => VirtualMachine
  | Call_ClusterComputeResourceOrDefault _ _ _ _ => ClusterComputeResourceOrDefault
  | Call_EvcManager _ _ _ _ => EvcManager
  | Call_RetrieveOne _ _ _ _ _ => RetrieveOne
  | Call_ApplyEvcModeVM_Task _ _ _ _ => ApplyEvcModeVM_Task
  | Call_Wait _ _ _ => Wait
  end.

(** The library calls in the order of the program text: the two of
    [createClient], lines 127 and 132, then those of lines 52, 53, 59, 65
    (the finder, then the lookup on it), 71, 80, 109 and 115 of
    [doThings]. *)
Definition programOrder : list Kind :=
  [ NewClient; Login; NewFinder; Datacenter; VirtualMachine; NewFinder;
    ClusterComputeResourceOrDefault; EvcManager; RetrieveOne;
    ApplyEvcModeVM_Task; Wait ].

(** The error of a [(value, error)] pair, [None] for [nil]. *)
Definition result_error {A : Type} (r : result A) : option error :=
  match r with
  | inl err => Some err
  | inr _ => None
  end.

(** The error a library call answered with, [None] when it succeeded;
    [find.NewFinder] returns no error. *)
Definition call_error (e : Call) : option error :=
  match e with
  | Call_NewClient _ _ r => result_error r
  | Call_Login _ _ _ r => r
  | Call_NewFinder _ _ => None
  | Call_Datacenter _ _ _ r => result_error r
  | Call_VirtualMachine _ _ _ r => result_error r
  | Call_ClusterComputeResourceOrDefault _ _ _ r => result_error r
  | Call_EvcManager _ _ _ r => result_error r
  | Call_RetrieveOne _ _ _ _ r => result_error r
  | Call_ApplyEvcModeVM_Task _ _ _ r => result_error r
  | Call_Wait _ _ r => r
  end.

(** What the program makes of the error [err] of the call [e]: the two
    calls of [createClient] have it wrapped (lines 129 and 134), the calls
    of [doThings] have it returned as it is. *)
Definition reported (e : Call) (err : error) : error :=
  match e with
  | Call_NewClient _ _ _ =>
      "could not create new vim25 govmomi client, did you set GOVC_USERNAME, GOVC_PASSWORD, GOVC_URL?: " ++ err
  | Call_Login _ _ _ _ =>
      "could not login via vim25 session manager, did you set GOVC_USERNAME, GOVC_PASSWORD, GOVC_URL?: " ++ err
  | _ => err
  end.

(** The vim25 client a library call was made through, for the calls that
    take one: directly, or inside a session manager, a finder, a property
    collector or a task. *)
Definition call_client (e : Call) : option vim25.Client :=
  match e with
  | Call_NewClient _ _ _ => None
  | Call_Login _ m _ _ => Some (session.client m)
  | Call_NewFinder c _ => Some c
  | Call_Datacenter _ f _ _ => Some (find.client f)
  | Call_VirtualMachine _ f _ _ => Some (find.client f)
  | Call_ClusterComputeResourceOrDefault _ f _ _ => Some (find.client f)
  | Call_EvcManager _ _ _ _ => None
  | Call_RetrieveOne _ pc _ _ _ => Some (property.client pc)
  | Call_ApplyEvcModeVM_Task _ c _ _ => Some c
  | Call_Wait _ t _ => Some (object.Task_client t)
  end.

(** The URL lines 119-124 build from the environment. *)
Definition clientURL (env : Environ) : url.URL :=
  {| url.Scheme := "https";
     url.User := Some (url.UserPassword (getenv env "GOVC_USERNAME")
                                        (getenv env "GOVC_PASSWORD"));
     url.Host := getenv env "GOVC_URL";
     url.Path := "/sdk" |}.


(** A server on which every call succeeds and whose EVC manager always
    reports a table that has masks for [evcMode]. *)
Record Healthy {S : Type} (R : Remote S) (evcMode : string) : Prop :=
  { healthy_NewClient : forall ctx sc s,
      exists c, fst (vim25_NewClient R ctx sc s) = inr c;
    healthy_Login : forall ctx m u s, fst (Manager_Login R ctx m u s) = None;
    healthy_Datacenter : forall ctx f path s,
      exists d, fst (Finder_Datacenter R ctx f path s) = inr d;
    healthy_VirtualMachine : forall ctx f path s,
      exists vm, fst (Finder_VirtualMachine R ctx f path s) = inr vm;
    healthy_Cluster : forall ctx f path s,
      exists c, fst (Finder_ClusterComputeResourceOrDefault R ctx f path s) = inr c;
    healthy_EvcManager : forall ctx rt req s,
      exists mgrRef,
        fst (methods_EvcManager R ctx rt req s)
        = inr {| types.EvcManager_Returnval := Some mgrRef |};
    healthy_RetrieveOne : forall ctx pc obj ps s,
      exists evcMgr masks,
        fst (Collector_RetrieveOne R ctx pc obj ps s) = inr evcMgr /\
        resolveMasks (types.SupportedEVCMode (mo.EvcState evcMgr)) evcMode
        = inr masks;
    healthy_Apply : forall ctx c req s,
      exists res, fst (methods_ApplyEvcModeVM_Task R ctx c req s) = inr res;
    healthy_Wait : forall ctx t s, fst (Task_Wait R ctx t s) = None }.

(** ** A small server to run the program against

    The server has more than one datacenter, so that a new finder finds no
    default one.  Every lookup by name succeeds, the EVC manager reports
    the table it is given and the task ends the way it is told to; the
    server state counts the calls it has answered. *)
Module Demo.

Definition ref (type value : string) : types.ManagedObjectReference :=
  {| types.Type_ := type; types.Value_ := value |}.

Definition mode (key : string) (masks : list types.HostFeatureMask) : types.EVCMode :=
  {| types.ElementDescription_ :=
       {| types.Label := key; types.Summary := key;
          types.ElementDescription_Key := key |};
     types.FeatureMask := masks |}.

Definition sandybridge : list types.HostFeatureMask :=
  [ {| types.Key := "f1"; types.FeatureName := "cpuid.AES"; types.Value := "1" |};
    {| types.Key := "f2"; types.FeatureName := "cpuid.AVX"; types.Value := "0" |} ].

Definition westmere : list types.HostFeatureMask :=
  [ {| types.Key := "f1"; types.FeatureName := "cpuid.AES"; types.Value := "1" |} ].

Definition table : list types.EVCMode :=
  [ mode "intel-sandybridge" sandybridge; mode "intel-westmere" westmere ].

Definition vcenter (modes : list types.EVCMode) (ending : option error) : Remote nat :=
  {| vim25_NewClient := fun _ sc n =>
       (inr {| vim25.soapClient := sc;
               vim25.RoundTripper := {| soap.transport := 1 |} |}, S n);
     Manager_Login := fun _ _ _ n => (None, S n);
     find_DefaultDatacenter := fun _ n => (None, S n);
     Finder_Datacenter := fun _ _ _ n =>
       (inr {| object.Datacenter_ref := ref "Datacenter" "datacenter-2" |}, S n);
     Finder_VirtualMachine := fun _ _ _ n =>
       (inr {| object.VirtualMachine_ref := ref "VirtualMachine" "vm-42" |}, S n);
     Finder_ClusterComputeResourceOrDefault := fun _ _ _ n =>
       (inr {| object.ClusterComputeResource_ref :=
                 ref "ClusterComputeResource" "domain-c7" |}, S n);
     methods_EvcManager := fun _ _ _ n =>
       (inr {| types.EvcManager_Returnval :=
                 Some (ref "ClusterEVCManager" "evcmanager-7") |}, S n);
     Collector_RetrieveOne := fun _ _ _ _ n =>
       (inr {| mo.EvcState := {| types.SupportedEVCMode := modes |} |}, S n);
     methods_ApplyEvcModeVM_Task := fun _ _ _ n =>
       (inr {| types.Returnval := ref "Task" "task-99" |}, S n);
     Task_Wait := fun _ _ n => (ending, S n) |}.

Definition env : Environ :=
  fun key =>
    if key =? "GOVC_URL" then Some "vcenter.example.com"
    else if key =? "GOVC_USERNAME" then Some "administrator"
    else if key =? "GOVC_PASSWORD" then Some "secret"
    else None.

Definition args : CommandLine :=
  {| arg_dc := Some "dc1"; arg_cluster := Some "cluster1";
     arg_vm := Some "vm1"; arg_evcmode := None |}.

(** The values that a run against [vcenter] under [env] passes around. *)
Definition soapClient : soap.Client :=
  soap.NewClient
    {| url.Scheme := "https";
       url.User := Some (url.UserPassword "administrator" "secret");
       url.Host := "vcenter.example.com";
       url.Path := "/sdk" |}
    true.

Definition client : vim25.Client :=
  {| vim25.soapClient := soapClient;
     vim25.RoundTripper := {| soap.transport := 1 |} |}.

Definition datacenter : object.Datacenter :=
  {| object.Datacenter_ref := ref "Datacenter" "datacenter-2" |}.

(** The finder [find.NewFinder] returns on this server: no default
    datacenter. *)
Definition finder : find.Finder :=
  {| find.client := client; find.dc := None |}.

Definition request : types.ApplyEvcModeVM_Task :=
  {| types.This := ref "VirtualMachine" "vm-42";
     types.Mask := sandybridge;
     types.CompleteMasks := Some true |}.

Definition response : types.ApplyEvcModeVM_TaskResponse :=
  {| types.Returnval := ref "Task" "task-99" |}.

Definition task : object.Task := object.NewTask client (ref "Task" "task-99").

(** The same server, but the login is refused. *)
Definition locked : Remote nat :=
  {| vim25_NewClient := vim25_NewClient (vcenter table None);
     Manager_Login := fun _ _ _ n => (Some "incorrect user name or password", S n);
     find_DefaultDatacenter := find_DefaultDatacenter (vcenter table None);
     Finder_Datacenter := Finder_Datacenter (vcenter table None);
     Finder_VirtualMachine := Finder_VirtualMachine (vcenter table None);
     Finder_ClusterComputeResourceOrDefault :=
       Finder_ClusterComputeResourceOrDefault (vcenter table None);
     methods_EvcManager := methods_EvcManager (vcenter table None);
     Collector_RetrieveOne := Collector_RetrieveOne (vcenter table None);
     methods_ApplyEvcModeVM_Task := methods_ApplyEvcModeVM_Task (vcenter table None);
     Task_Wait := Task_Wait (vcenter table None) |}.

(** The same server, but the cluster's EVC manager call answers with no
    reference and no error. *)
Definition unmanaged : Remote nat :=
  {| vim25_NewClient := vim25_NewClient (vcenter table None);
     Manager_Login := Manager_Login (vcenter table None);
     find_DefaultDatacenter := find_DefaultDatacenter (vcenter table None);
     Finder_Datacenter := Finder_Datacenter (vcenter table None);
     Finder_VirtualMachine := Finder_VirtualMachine (vcenter table None);
     Finder_ClusterComputeResourceOrDefault :=
       Finder_ClusterComputeResourceOrDefault (vcenter table None);
     methods_EvcManager := fun _ _ _ n =>
       (inr {| types.EvcManager_Returnval := None |}, S n);
     Collector_RetrieveOne := Collector_RetrieveOne (vcenter table None);
     methods_ApplyEvcModeVM_Task := methods_ApplyEvcModeVM_Task (vcenter table None);
     Task_Wait := Task_Wait (vcenter table None) |}.

End Demo.

(** [doThings] against [Demo.vcenter Demo.table], with the cluster name
    [cluster] and the task ending with [ending]. *)
Abbreviation demo_run cluster ending :=
  (doThings (Demo.vcenter Demo.table ending) Background "dc1" cluster
     "intel-sandybridge" "vm1" (start Demo.env 0)).

(** * Properties *)

(** ** Tools for following a run *)

(** Printing the masks calls nothing and cannot fail: it only appends one
    line per mask, in order, to the standard output. *)
Lemma printMasks_run {S : Type} (masks : list types.HostFeatureMask) (p : Process S) :
  printMasks masks p =
    (Returns tt,
     {| environ := environ p; server := server p; calls := calls p;
        written := (written p ++ maskOutput masks)%list |}).
Proof.
  revert p. induction masks as [|mask rest IH]; intros [env s cs ws]; cbn.
  - unfold ret. now rewrite app_nil_r.
  - unfold bind, fmt_Println, write. cbn. rewrite IH. cbn.
    now rewrite <- app_assoc.
Qed.

(** Splits the run on the answer of the next library call or test. *)
Ltac next_answer :=
  match goal with
  | |- context [vim25_NewClient ?R ?a ?b ?s] =>
      destruct (vim25_NewClient R a b s) as [[?err|?vimClient] ?s] eqn:?
  | |- context [Manager_Login ?R ?a ?b ?c ?s] =>
      destruct (Manager_Login R a b c s) as [[?err|] ?s] eqn:?
  | |- context [find_DefaultDatacenter ?R ?a ?s] =>
      destruct (find_DefaultDatacenter R a s) as [?dcDefault ?s] eqn:?
  | |- context [Finder_Datacenter ?R ?a ?b ?c ?s] =>
      destruct (Finder_Datacenter R a b c s) as [[?err|?dcObj] ?s] eqn:?
  | |- context [Finder_VirtualMachine ?R ?a ?b ?c ?s] =>
      destruct (Finder_VirtualMachine R a b c s) as [[?err|?vm] ?s] eqn:?
  | |- context [Finder_ClusterComputeResourceOrDefault ?R ?a ?b ?c ?s] =>
      destruct (Finder_ClusterComputeResourceOrDefault R a b c s)
        as [[?err|?clusterObj] ?s] eqn:?
  | |- context [methods_EvcManager ?R ?a ?b ?c ?s] =>
      destruct (methods_EvcManager R a b c s) as [[?err|[[?mgrRef|]]] ?s] eqn:?
  | |- context [Collector_RetrieveOne ?R ?a ?b ?c ?d ?s] =>
      destruct (Collector_RetrieveOne R a b c d s) as [[?err|?evcMgr] ?s] eqn:?
  | |- context [resolveMasks ?modes ?n] =>
      destruct (resolveMasks modes n) as [?err|?masks] eqn:?
  | |- context [methods_ApplyEvcModeVM_Task ?R ?a ?b ?c ?s] =>
      destruct (methods_ApplyEvcModeVM_Task R a b c s) as [[?err|?res] ?s] eqn:?
  | |- context [Task_Wait ?R ?a ?b ?s] =>
      destruct (Task_Wait R a b s) as [?ending ?s] eqn:?
  end.

Ltac unfold_program :=
  unfold doThings, createClient, find_NewFinder, bind, remote, ret, os_Getenv,
    deref, panic,
    fmt_Printf, fmt_Fprintf, fmt_Println, write, start.

Ltac follow_run :=
  unfold_program; cbn;
  repeat (first [ rewrite printMasks_run | next_answer ]; cbn).

Ltac in_log :=
  repeat match goal with
         | H : In _ (_ ++ _)%list |- _ => apply in_app_or in H; destruct H as [H|H]
         | H : In _ (_ :: _) |- _ => destruct H as [H|H]
         | H : In _ [] |- _ => destruct H
         | H : _ \/ _ |- _ => destruct H as [H|H]
         | H : False |- _ => destruct H
         | H : @eq Call _ _ |- _ => first [discriminate H | inversion H; clear H; subst]
         end.

(** ** Completeness flag *)

(** C3. Every apply request that a run of [doThings] submits, whatever the
    server answers and whatever the arguments, carries [CompleteMasks]
    set (not nil) and true. *)
Theorem doThings_completeMasks_true :
  forall (S : Type) (R : Remote S) (env : Environ) (s : S)
         (ctx : Context) (dc cluster evcMode vmName : string)
         (ctx' : Context) (c : vim25.Client) (req : types.ApplyEvcModeVM_Task)
         (r : result types.ApplyEvcModeVM_TaskResponse),
    In (Call_ApplyEvcModeVM_Task ctx' c req r)
       (calls (snd (doThings R ctx dc cluster evcMode vmName (start env s)))) ->
    types.CompleteMasks req = Some true.
Proof.
  intros S R env s ctx dc cluster evcMode vmName ctx' c req r.
  follow_run; intros H; in_log; reflexivity.
Qed.

(** ** The checks at the top of [main] *)

Lemma missing_flag_empty (given : option string) :
  missing given -> (flag_String given EmptyString =? EmptyString) = true.
Proof. intros [->| ->]; reflexivity. Qed.

Lemma missing_env_empty (env : Environ) (key : string) :
  missing (env key) -> (getenv env key =? EmptyString) = true.
Proof. unfold getenv. intros [->| ->]; reflexivity. Qed.

Lemma bind_Getenv {S A : Type} (key : string) (k : string -> M S A) (p : Process S) :
  bind (os_Getenv key) k p = k (getenv (environ p) key) p.
Proof. reflexivity. Qed.

(** A run of [main] either stops at one of the two checks, with exit code
    1, one line on the standard output and no call made, or is the run of
    [doThings] under [context.Background()] followed by the report of its
    error. *)
Lemma main_run {S : Type} (R : Remote S) (args : CommandLine) (env : Environ) (s : S) :
  (exists msg,
      (msg = flagsRequired \/ msg = envRequired) /\
      main R args (start env s) =
        (Exits 1,
         {| environ := env; server := s; calls := [];
            written := [(Stdout, msg ++ newline)] |}))
  \/
  (flag_String (arg_dc args) EmptyString <> EmptyString /\
   flag_String (arg_cluster args) EmptyString <> EmptyString /\
   flag_String (arg_vm args) EmptyString <> EmptyString /\
   main R args (start env s) =
     match doThings R Background
             (flag_String (arg_dc args) EmptyString)
             (flag_String (arg_cluster args) EmptyString)
             (flag_String (arg_evcmode args) "intel-sandybridge")
             (flag_String (arg_vm args) EmptyString)
             (start env s)
     with
     | (Returns (Some err), p) =>
         (Exits 1,
          {| environ := environ p; server := server p; calls := calls p;
             written := (written p
                         ++ [(Stderr, ("error: " ++ err ++ newline)%string)])%list |})
     | (Returns None, p) => (Returns tt, p)
     | (Exits code, p) => (Exits code, p)
     | (Panics, p) => (Panics, p)
     end).
Proof.
  unfold main.
  destruct (flag_String (arg_dc args) EmptyString =? EmptyString) eqn:Edc;
    [left; exists flagsRequired; split; [now left | reflexivity] |].
  destruct (flag_String (arg_cluster args) EmptyString =? EmptyString) eqn:Ecl;
    [left; exists flagsRequired; split; [now left | reflexivity] |].
  destruct (flag_String (arg_vm args) EmptyString =? EmptyString) eqn:Evm;
    [left; exists flagsRequired; split; [now left | reflexivity] |].
  cbn [orb]. rewrite !bind_Getenv. cbn [environ start].
  destruct (getenv env "GOVC_PASSWORD" =? EmptyString) eqn:Epw;
    [left; exists envRequired; split; [now right | reflexivity] |].
  destruct (getenv env "GOVC_USERNAME" =? EmptyString) eqn:Eus;
    [left; exists envRequired; split; [now right | reflexivity] |].
  destruct (getenv env "GOVC_URL" =? EmptyString) eqn:Eur;
    [left; exists envRequired; split; [now right | reflexivity] |].
  right. apply String.eqb_neq in Edc, Ecl, Evm.
  split; [assumption | split; [assumption | split; [assumption |]]].
  cbn [orb]. unfold bind at 1.
  destruct (doThings R Background _ _ _ _ (start env s)) as [[[err|]| |] p];
    reflexivity.
Qed.

(** C4. When at least one of the datacenter, cluster and VM flags and of
    the endpoint, principal and secret variables is absent or empty, [main]
    prints one of its two configuration messages and exits with code 1
    without any library call: the call log is empty and the server is
    untouched. *)
Theorem main_missing_config_exits_before_any_call :
  forall (S : Type) (R : Remote S) (args : CommandLine) (env : Environ) (s : S),
    missing (arg_dc args) \/ missing (arg_cluster args) \/ missing (arg_vm args) \/
    missing (env "GOVC_URL") \/ missing (env "GOVC_USERNAME") \/
    missing (env "GOVC_PASSWORD") ->
    exists msg,
      (msg = flagsRequired \/ msg = envRequired) /\
      main R args (start env s) =
        (Exits 1,
         {| environ := env; server := s; calls := [];
            written := [(Stdout, msg ++ newline)] |}).
Proof.
  intros S R args env s H. unfold main.
  destruct (flag_String (arg_dc args) EmptyString =? EmptyString) eqn:Edc;
    [exists flagsRequired; split; [now left | reflexivity] |].
  destruct (flag_String (arg_cluster args) EmptyString =? EmptyString) eqn:Ecl;
    [exists flagsRequired; split; [now left | reflexivity] |].
  destruct (flag_String (arg_vm args) EmptyString =? EmptyString) eqn:Evm;
    [exists flagsRequired; split; [now left | reflexivity] |].
  cbn [orb]. rewrite !bind_Getenv. cbn [environ start].
  destruct H as [H|[H|[H|H]]];
    try (apply missing_flag_empty in H; congruence).
  exists envRequired. split; [now right|].
  destruct H as [H|[H|H]]; apply missing_env_empty in H; rewrite H;
    rewrite ?orb_true_r; reflexivity.
Qed.

(** C4 at work: no flag at all and an empty environment. *)
Lemma main_missing_config_witness :
  exists msg,
    (msg = flagsRequired \/ msg = envRequired) /\
    main (Demo.vcenter Demo.table None)
         {| arg_dc := None; arg_cluster := Some "cluster1";
            arg_vm := Some "vm1"; arg_evcmode := None |}
         (start Demo.env 0) =
      (Exits 1,
       {| environ := Demo.env; server := 0; calls := [];
          written := [(Stdout, msg ++ newline)] |}).
Proof.
  apply (main_missing_config_exits_before_any_call nat
           (Demo.vcenter Demo.table None)
           {| arg_dc := None; arg_cluster := Some "cluster1";
              arg_vm := Some "vm1"; arg_evcmode := None |} Demo.env 0).
  left. left. reflexivity.
Defined.

(** ** Text *)

Lemma append_empty_r (s : string) : s ++ EmptyString = s.
Proof. induction s as [|a s IH]; cbn; [reflexivity | now rewrite IH]. Qed.

Lemma append_assoc (s t v : string) : (s ++ t) ++ v = s ++ t ++ v.
Proof. induction s as [|a s IH]; cbn; [reflexivity | now rewrite IH]. Qed.

Lemma Contains_refl (s : string) : Contains s s.
Proof. exists EmptyString, EmptyString. cbn. now rewrite append_empty_r. Qed.

Lemma Contains_append_l (needle prefix text : string) :
  Contains needle text -> Contains needle (prefix ++ text).
Proof.
  intros (before & after & ->). exists (prefix ++ before), after.
  now rewrite append_assoc.
Qed.

Lemma Contains_append_r (needle text suffix : string) :
  Contains needle text -> Contains needle (text ++ suffix).
Proof.
  intros (before & after & ->). exists before, (after ++ suffix).
  now rewrite !append_assoc.
Qed.

(** ** Mask resolution *)

(** The scan keeps [masks] when no key matches. *)
Lemma scan_no_match (modes : list types.EVCMode) (n : string)
    (masks : list types.HostFeatureMask) :
  (forall x, In x modes -> modeKey x <> n) ->
  scanSupportedEVCMode modes n masks = masks.
Proof.
  induction modes as [|e rest IH]; intros Hno; cbn; [reflexivity|].
  destruct (String.eqb_spec (types.ElementDescription_Key (types.ElementDescription_ e)) n)
    as [Heq|Hne].
  - exfalso. apply (Hno e); [now left | exact Heq].
  - apply IH. intros x Hx. apply Hno. now right.
Qed.

(** The scan stops at the first entry that has the key. *)
Lemma scan_first_match (before : list types.EVCMode) (e : types.EVCMode)
    (after : list types.EVCMode) (n : string) (masks : list types.HostFeatureMask) :
  (forall x, In x before -> modeKey x <> n) ->
  modeKey e = n ->
  scanSupportedEVCMode (before ++ e :: after) n masks = types.FeatureMask e.
Proof.
  induction before as [|b rest IH]; intros Hno He; cbn.
  - unfold modeKey in He. rewrite He, String.eqb_refl. reflexivity.
  - destruct (String.eqb_spec (types.ElementDescription_Key (types.ElementDescription_ b)) n)
      as [Heq|Hne].
    + exfalso. apply (Hno b); [now left | exact Heq].
    + apply IH; [|exact He]. intros x Hx. apply Hno. now right.
Qed.

(** Every table has a first match or none. *)
Lemma FirstMatch_total (n : string) (modes : list types.EVCMode) :
  exists m, FirstMatch n modes m.
Proof.
  induction modes as [|e rest [m IH]].
  - exists None. constructor. intros x [].
  - destruct (String.eqb_spec (modeKey e) n) as [Heq|Hne].
    + exists (Some e). apply (FirstMatch_some n [] e rest); [intros x [] | exact Heq].
    + destruct IH as [modes Hno | before e' after Hno He'].
      * exists None. constructor. intros x [<-|Hx]; [exact Hne | now apply Hno].
      * exists (Some e'). apply (FirstMatch_some n (e :: before) e' after); [|exact He'].
        intros x [<-|Hx]; [exact Hne | now apply Hno].
Qed.

(** The scenario of the two baselines: the one the table has resolves to
    its two masks in their order, the one it lacks is an error that names
    it. *)
Example resolveMasks_scenario_present :
  resolveMasks Demo.table "intel-sandybridge" = inr Demo.sandybridge.
Proof. reflexivity. Qed.

Example resolveMasks_scenario_absent :
  resolveMasks Demo.table "intel-haswell"
  = inl "error finding EVC feature masks for intel-haswell".
Proof. reflexivity. Qed.

(** C1, the claim as written fails: a table whose only entry has the
    requested key, with an empty mask list.  An entry matches, and the
    resolution fails all the same. *)
Lemma resolveMasks_fails_on_matching_entry :
  (exists e, In e [Demo.mode "intel-sandybridge" []]
             /\ modeKey e = "intel-sandybridge")
  /\ resolveMasks [Demo.mode "intel-sandybridge" []] "intel-sandybridge"
     = inl "error finding EVC feature masks for intel-sandybridge".
Proof.
  split; [|reflexivity].
  exists (Demo.mode "intel-sandybridge" []). split; [now left | reflexivity].
Qed.

(** C1, as the code has it.  With [m] the first entry of the table whose
    key is exactly the requested name (so the first of duplicates), the
    resolution returns the mask list of [m] when that list is not empty,
    and fails with the error that names the baseline when there is no
    such entry (the empty table included) or when the list of [m] is
    empty. *)
Theorem resolveMasks_first_match :
  forall (modes : list types.EVCMode) (n : string) (m : option types.EVCMode),
    FirstMatch n modes m ->
    resolveMasks modes n =
      match m with
      | Some e =>
          match types.FeatureMask e with
          | [] => inl ("error finding EVC feature masks for " ++ n)
          | _ :: _ => inr (types.FeatureMask e)
          end
      | None => inl ("error finding EVC feature masks for " ++ n)
      end.
Proof.
  intros modes n m [modes' Hno | before e after Hno He]; unfold resolveMasks.
  - now rewrite scan_no_match.
  - rewrite scan_first_match by assumption.
    destruct (types.FeatureMask e); reflexivity.
Qed.

(** C1 at work: the second of two entries with the same key is ignored. *)
Lemma resolveMasks_first_match_witness :
  resolveMasks
    [Demo.mode "intel-westmere" Demo.westmere;
     Demo.mode "intel-sandybridge" Demo.sandybridge;
     Demo.mode "intel-sandybridge" Demo.westmere]
    "intel-sandybridge"
  = inr Demo.sandybridge.
Proof.
  apply (resolveMasks_first_match
           ([Demo.mode "intel-westmere" Demo.westmere]
            ++ Demo.mode "intel-sandybridge" Demo.sandybridge
            :: [Demo.mode "intel-sandybridge" Demo.westmere])%list
           "intel-sandybridge"
           (Some (Demo.mode "intel-sandybridge" Demo.sandybridge))).
  apply FirstMatch_some.
  - intros x [<-|[]]. discriminate.
  - reflexivity.
Defined.

(** C8. Whenever the resolution fails, and so whenever the requested
    baseline is not in the table, the error text contains the requested
    name verbatim. *)
Theorem resolveMasks_error_names_baseline :
  forall (modes : list types.EVCMode) (n : string) (err : error),
    resolveMasks modes n = inl err ->
    Contains n err.
Proof.
  intros modes n err. unfold resolveMasks.
  destruct (Nat.eqb _ 0); [|discriminate].
  intros [= <-].
  apply (Contains_append_l n "error finding EVC feature masks for " n), Contains_refl.
Qed.

(** C8 at work: the baseline of the scenario that the table lacks. *)
Lemma resolveMasks_error_names_baseline_witness :
  Contains "intel-haswell" "error finding EVC feature masks for intel-haswell".
Proof.
  apply (resolveMasks_error_names_baseline Demo.table "intel-haswell"
           "error finding EVC feature masks for intel-haswell").
  reflexivity.
Defined.

(** ** The calls of a run of [doThings] *)

Section DoThingsRun.

Context {S : Type} (R : Remote S) (env : Environ) (s : S).
Context (ctx : Context) (dc cluster evcMode vmName : string).

Let run : Outcome (option error) * Process S :=
  doThings R ctx dc cluster evcMode vmName (start env s).

(** Every call is made under the context [doThings] was given, the
    constructions of the finders apart. *)
Lemma doThings_calls_ctx (e : Call) :
  In e (calls (snd run)) -> call_ctx e = ctx \/ call_kind e = NewFinder.
Proof.
  subst run. follow_run; intros H; in_log;
    first [left; reflexivity | right; reflexivity].
Qed.

(** The wait is the last call, and its answer is what [doThings] returns. *)
Lemma doThings_wait_last (ctx' : Context) (t : object.Task) (r : option error) :
  In (Call_Wait ctx' t r) (calls (snd run)) ->
  fst run = Returns r /\
  exists before, calls (snd run) = (before ++ [Call_Wait ctx' t r])%list.
Proof.
  subst run. follow_run; intros H; in_log.
  split; [reflexivity|].
  match goal with |- exists before, ?log = _ => exists (removelast log) end.
  reflexivity.
Qed.

(** The only soap client ever handed to the library is the one line 126
    builds. *)
Lemma doThings_soap_client (ctx' : Context) (sc : soap.Client) (r : result vim25.Client) :
  In (Call_NewClient ctx' sc r) (calls (snd run)) ->
  sc = soap.NewClient
         {| url.Scheme := "https";
            url.User := Some (url.UserPassword (getenv env "GOVC_USERNAME")
                                               (getenv env "GOVC_PASSWORD"));
            url.Host := getenv env "GOVC_URL";
            url.Path := "/sdk" |}
         true.
Proof.
  subst run. follow_run; intros H; in_log; reflexivity.
Qed.

(** The cluster lookup gets the name as given, on a finder of its own:
    the one the call just before it constructed, which holds the default
    datacenter that construction found. *)
Lemma doThings_cluster_lookup (ctx' : Context) (f : find.Finder) (path : string)
    (r : result object.ClusterComputeResource) :
  In (Call_ClusterComputeResourceOrDefault ctx' f path r) (calls (snd run)) ->
  path = cluster /\
  exists before after,
    calls (snd run)
    = (before
       ++ Call_NewFinder (find.client f) (find.dc f)
       :: Call_ClusterComputeResourceOrDefault ctx' f path r :: after)%list /\
    exists f0 vm, In (Call_VirtualMachine ctx f0 vmName (inr vm)) before.
Proof.
  subst run. follow_run; intros H; in_log; (split; [reflexivity|]);
    match goal with
    | |- exists before after,
          (?a :: ?b :: ?c :: ?d :: ?e :: ?rest)%list = _ /\ _ =>
        exists [a; b; c; d; e]; eexists; split; [reflexivity|];
        do 2 eexists; cbn; eauto 8
    end.
Qed.

(** The VM lookup is made on the finder that holds the datacenter the
    datacenter lookup returned. *)
Lemma doThings_vm_lookup (ctx' : Context) (f : find.Finder) (path : string)
    (r : result object.VirtualMachine) :
  In (Call_VirtualMachine ctx' f path r) (calls (snd run)) ->
  path = vmName /\
  exists f0 dcObj,
    In (Call_Datacenter ctx f0 dc (inr dcObj)) (calls (snd run)) /\
    find.dc f = Some dcObj.
Proof.
  subst run. follow_run; intros H; in_log;
    (split; [reflexivity|]; do 2 eexists; split; [|reflexivity]);
    cbn; auto 14.
Qed.

(** Everything [doThings] writes goes to the standard output. *)
Lemma doThings_writes_stdout (x : Stream * string) :
  In x (written (snd run)) -> fst x = Stdout.
Proof.
  subst run. follow_run; intros H;
    repeat match goal with
           | H : In _ (_ ++ _)%list |- _ => apply in_app_or in H; destruct H as [H|H]
           | H : In _ (maskOutput _) |- _ =>
               apply in_map_iff in H; destruct H as (? & <- & _)
           | H : In _ (_ :: _) |- _ => destruct H as [<-|H]
           | H : In _ [] |- _ => destruct H
           | H : _ \/ _ |- _ => destruct H as [H|H]
           | H : False |- _ => destruct H
           end; try reflexivity; try (subst; reflexivity).
Qed.

End DoThingsRun.

(** Proves that a given call is in a log that computes. *)
Ltac find_in_log := vm_compute; repeat (first [left; reflexivity | right]).

(** ** Order preservation *)

(** C2. The mask list of every apply request that a run of [doThings]
    submits is the list that the resolution returns on the table the
    property read returned in that run: the same masks in the same order,
    none added, dropped or merged. *)
Theorem doThings_submits_resolved_masks :
  forall (S : Type) (R : Remote S) (env : Environ) (s : S)
         (ctx : Context) (dc cluster evcMode vmName : string)
         (ctx' : Context) (c : vim25.Client) (req : types.ApplyEvcModeVM_Task)
         (r : result types.ApplyEvcModeVM_TaskResponse),
    In (Call_ApplyEvcModeVM_Task ctx' c req r)
       (calls (snd (doThings R ctx dc cluster evcMode vmName (start env s)))) ->
    exists pc obj ps evcMgr,
      In (Call_RetrieveOne ctx pc obj ps (inr evcMgr))
         (calls (snd (doThings R ctx dc cluster evcMode vmName (start env s)))) /\
      resolveMasks (types.SupportedEVCMode (mo.EvcState evcMgr)) evcMode
      = inr (types.Mask req).
Proof.
  intros S R env s ctx dc cluster evcMode vmName ctx' c req r.
  follow_run; intros H; in_log;
    do 4 eexists; (split; [|eassumption]); cbn; auto 14.
Qed.

(** C2 at work: the two masks of the scenario reach the request as they
    stand in the table. *)
Lemma doThings_submits_resolved_masks_witness :
  In (Call_ApplyEvcModeVM_Task Background Demo.client Demo.request (inr Demo.response))
     (calls (snd (demo_run "cluster1" None))) /\
  exists pc obj ps evcMgr,
    In (Call_RetrieveOne Background pc obj ps (inr evcMgr))
       (calls (snd (demo_run "cluster1" None))) /\
    resolveMasks (types.SupportedEVCMode (mo.EvcState evcMgr)) "intel-sandybridge"
    = inr Demo.sandybridge.
Proof.
  assert (H : In (Call_ApplyEvcModeVM_Task Background Demo.client Demo.request
                    (inr Demo.response))
                 (calls (snd (demo_run "cluster1" None)))) by find_in_log.
  split; [exact H|].
  exact (doThings_submits_resolved_masks nat (Demo.vcenter Demo.table None)
           Demo.env 0 Background "dc1" "cluster1" "intel-sandybridge" "vm1"
           Background Demo.client Demo.request (inr Demo.response) H).
Defined.

(** C3 at work, on the request of the same run. *)
Lemma doThings_completeMasks_true_witness :
  In (Call_ApplyEvcModeVM_Task Background Demo.client Demo.request (inr Demo.response))
     (calls (snd (demo_run "cluster1" None))) /\
  types.CompleteMasks Demo.request = Some true.
Proof.
  assert (H : In (Call_ApplyEvcModeVM_Task Background Demo.client Demo.request
                    (inr Demo.response))
                 (calls (snd (demo_run "cluster1" None)))) by find_in_log.
  split; [exact H|].
  exact (doThings_completeMasks_true nat (Demo.vcenter Demo.table None)
           Demo.env 0 Background "dc1" "cluster1" "intel-sandybridge" "vm1"
           Background Demo.client Demo.request (inr Demo.response) H).
Defined.

(** ** Runs of [main] *)

(** The calls of a run of [main]: none, or those of [doThings] under
    [context.Background()] with the flags as given, none of the three
    required ones empty. *)
Lemma main_calls {S : Type} (R : Remote S) (args : CommandLine) (env : Environ) (s : S) :
  calls (snd (main R args (start env s))) = [] \/
  (flag_String (arg_cluster args) EmptyString <> EmptyString /\
   calls (snd (main R args (start env s))) =
     calls (snd (doThings R Background
                   (flag_String (arg_dc args) EmptyString)
                   (flag_String (arg_cluster args) EmptyString)
                   (flag_String (arg_evcmode args) "intel-sandybridge")
                   (flag_String (arg_vm args) EmptyString)
                   (start env s)))).
Proof.
  destruct (main_run R args env s) as [(msg & _ & ->) | (_ & Hcl & _ & ->)];
    [left; reflexivity | right; split; [exact Hcl|]].
  destruct (doThings R Background _ _ _ _ (start env s)) as [[[err|]| |] p];
    reflexivity.
Qed.

(** Every call of a run of [main] is made under [context.Background()]. *)
Lemma main_calls_ctx {S : Type} (R : Remote S) (args : CommandLine) (env : Environ)
    (s : S) (e : Call) :
  In e (calls (snd (main R args (start env s)))) -> call_ctx e = Background.
Proof.
  destruct (main_calls R args env s) as [-> | [_ ->]]; [intros []|].
  intros H. apply doThings_calls_ctx in H. destruct H as [H|H]; [exact H|].
  destruct e; try discriminate H. reflexivity.
Qed.

(** ** Terminal state *)

(** C5. In every run of [main] that gets to await the apply operation:
    when the wait reports success, [main] returns normally, having written
    nothing to the standard error; when it reports a failure with reason
    [reason], [main] exits with code 1 and the line it wrote to the
    standard error contains [reason] verbatim. *)
Theorem main_reports_wait_outcome :
  forall (S : Type) (R : Remote S) (args : CommandLine) (env : Environ) (s : S)
         (ctx : Context) (t : object.Task) (r : option error),
    In (Call_Wait ctx t r) (calls (snd (main R args (start env s)))) ->
    match r with
    | None =>
        fst (main R args (start env s)) = Returns tt /\
        forall text, ~ In (Stderr, text) (written (snd (main R args (start env s))))
    | Some reason =>
        fst (main R args (start env s)) = Exits 1 /\
        In (Stderr, "error: " ++ reason ++ newline)
           (written (snd (main R args (start env s)))) /\
        Contains reason ("error: " ++ reason ++ newline)
    end.
Proof.
  intros S R args env s ctx t r.
  destruct (main_run R args env s) as [(msg & _ & ->) | (_ & _ & _ & ->)];
    [intros []|].
  pose proof (doThings_wait_last R env s Background
                (flag_String (arg_dc args) EmptyString)
                (flag_String (arg_cluster args) EmptyString)
                (flag_String (arg_evcmode args) "intel-sandybridge")
                (flag_String (arg_vm args) EmptyString) ctx t r) as Hlast.
  pose proof (doThings_writes_stdout R env s Background
                (flag_String (arg_dc args) EmptyString)
                (flag_String (arg_cluster args) EmptyString)
                (flag_String (arg_evcmode args) "intel-sandybridge")
                (flag_String (arg_vm args) EmptyString)) as Hout.
  cbv zeta in Hlast, Hout.
  destruct (doThings R Background _ _ _ _ (start env s)) as [o p].
  cbn [fst snd] in Hlast, Hout.
  destruct o as [[err|]| |]; cbn [fst snd calls written]; intros H;
    destruct (Hlast H) as [Ho _]; try discriminate Ho; injection Ho as <-.
  - split; [reflexivity|]. split.
    + apply in_or_app. right. now left.
    + apply (Contains_append_l err "error: " (err ++ newline)).
      apply Contains_append_r, Contains_refl.
  - split; [reflexivity|]. intros text Hin. apply Hout in Hin. discriminate Hin.
Qed.

(** C5 at work: the task fails with the reason the server gave. *)
Lemma main_reports_wait_outcome_witness :
  In (Call_Wait Background Demo.task (Some "A specified parameter was not correct"))
     (calls (snd (main (Demo.vcenter Demo.table
                          (Some "A specified parameter was not correct"))
                       Demo.args (start Demo.env 0)))) /\
  fst (main (Demo.vcenter Demo.table (Some "A specified parameter was not correct"))
            Demo.args (start Demo.env 0)) = Exits 1 /\
  In (Stderr, "error: " ++ "A specified parameter was not correct" ++ newline)
     (written (snd (main (Demo.vcenter Demo.table
                            (Some "A specified parameter was not correct"))
                         Demo.args (start Demo.env 0)))) /\
  Contains "A specified parameter was not correct"
           ("error: " ++ "A specified parameter was not correct" ++ newline).
Proof.
  assert (H : In (Call_Wait Background Demo.task
                    (Some "A specified parameter was not correct"))
                 (calls (snd (main (Demo.vcenter Demo.table
                                      (Some "A specified parameter was not correct"))
                                   Demo.args (start Demo.env 0)))))
    by find_in_log.
  split; [exact H|].
  exact (main_reports_wait_outcome nat
           (Demo.vcenter Demo.table (Some "A specified parameter was not correct"))
           Demo.args Demo.env 0 Background Demo.task
           (Some "A specified parameter was not correct") H).
Defined.

(** ** Cancellation *)

(** C9, the claim as written fails: no run of the program has a wait made
    under a context that can be cancelled, so in no run does a
    cancellation signal fire while the apply operation is awaited. *)
Lemma no_run_awaits_under_cancellable_context :
  ~ exists (S : Type) (R : Remote S) (args : CommandLine) (env : Environ) (s : S)
           (ctx : Context) (t : object.Task) (r : option error),
      cancellable ctx = true /\
      In (Call_Wait ctx t r) (calls (snd (main R args (start env s)))).
Proof.
  intros (S & R & args & env & s & ctx & t & r & Hc & Hin).
  apply main_calls_ctx in Hin. cbn in Hin. subst ctx. discriminate Hc.
Qed.

(** C9, as the code has it.  In every run of the program the apply
    operation is awaited under [context.Background()], which carries no
    cancellation signal and no deadline; the wait is the last library call
    of the run, so nothing is rolled back whatever it answers. *)
Theorem main_awaits_under_background :
  forall (S : Type) (R : Remote S) (args : CommandLine) (env : Environ) (s : S)
         (ctx : Context) (t : object.Task) (r : option error),
    In (Call_Wait ctx t r) (calls (snd (main R args (start env s)))) ->
    ctx = Background /\
    cancellable ctx = false /\
    exists before,
      calls (snd (main R args (start env s))) = (before ++ [Call_Wait ctx t r])%list.
Proof.
  intros S R args env s ctx t r Hin.
  assert (Hctx : ctx = Background) by (apply main_calls_ctx in Hin; exact Hin).
  split; [exact Hctx|]. split; [now rewrite Hctx|].
  destruct (main_calls R args env s) as [E | [_ E]]; rewrite E in Hin |- *;
    [destruct Hin|].
  apply (doThings_wait_last R env s Background _ _ _ _ ctx t r Hin).
Qed.

(** C9 at work: the wait of a run that succeeds. *)
Lemma main_awaits_under_background_witness :
  In (Call_Wait Background Demo.task None)
     (calls (snd (main (Demo.vcenter Demo.table None) Demo.args (start Demo.env 0)))) /\
  Background = Background /\
  cancellable Background = false /\
  exists before,
    calls (snd (main (Demo.vcenter Demo.table None) Demo.args (start Demo.env 0)))
    = (before ++ [Call_Wait Background Demo.task None])%list.
Proof.
  assert (H : In (Call_Wait Background Demo.task None)
                 (calls (snd (main (Demo.vcenter Demo.table None) Demo.args
                                   (start Demo.env 0)))))
    by find_in_log.
  split; [exact H|].
  exact (main_awaits_under_background nat (Demo.vcenter Demo.table None)
           Demo.args Demo.env 0 Background Demo.task None H).
Defined.

(** ** Cluster lookup *)

(** C6, the claim as written fails: no run of the program looks a cluster
    up under an empty name, and none looks a cluster up at all when the
    cluster flag is absent or empty. *)
Lemma no_run_looks_up_empty_cluster_name :
  ~ exists (S : Type) (R : Remote S) (args : CommandLine) (env : Environ) (s : S)
           (ctx : Context) (f : find.Finder) (path : string)
           (r : result object.ClusterComputeResource),
      (path = EmptyString \/ flag_String (arg_cluster args) EmptyString = EmptyString) /\
      In (Call_ClusterComputeResourceOrDefault ctx f path r)
         (calls (snd (main R args (start env s)))).
Proof.
  intros (S & R & args & env & s & ctx & f & path & r & Hempty & Hin).
  destruct (main_calls R args env s) as [E | [Hcl E]]; rewrite E in Hin;
    [destruct Hin|].
  apply doThings_cluster_lookup in Hin. destruct Hin as [-> _].
  destruct Hempty as [H|H]; exact (Hcl H).
Qed.

(** C6, as the code has it.  In every run of the program the cluster
    lookup, the library's cluster-or-default lookup, receives exactly the
    value of the cluster flag, and that value is never empty: [main] has
    exited before any call when the flag is absent or empty. *)
Theorem main_cluster_lookup_name :
  forall (S : Type) (R : Remote S) (args : CommandLine) (env : Environ) (s : S)
         (ctx : Context) (f : find.Finder) (path : string)
         (r : result object.ClusterComputeResource),
    In (Call_ClusterComputeResourceOrDefault ctx f path r)
       (calls (snd (main R args (start env s)))) ->
    path = flag_String (arg_cluster args) EmptyString /\ path <> EmptyString.
Proof.
  intros S R args env s ctx f path r Hin.
  destruct (main_calls R args env s) as [E | [Hcl E]]; rewrite E in Hin;
    [destruct Hin|].
  apply doThings_cluster_lookup in Hin. destruct Hin as [-> _].
  split; [reflexivity | exact Hcl].
Qed.

(** C6 at work: the lookup of the cluster named on the command line. *)
Lemma main_cluster_lookup_name_witness :
  In (Call_ClusterComputeResourceOrDefault Background Demo.finder
        "cluster1"
        (inr {| object.ClusterComputeResource_ref :=
                  Demo.ref "ClusterComputeResource" "domain-c7" |}))
     (calls (snd (main (Demo.vcenter Demo.table None) Demo.args (start Demo.env 0)))) /\
  "cluster1" = flag_String (arg_cluster Demo.args) EmptyString /\
  "cluster1" <> EmptyString.
Proof.
  assert (H : In (Call_ClusterComputeResourceOrDefault Background
                    Demo.finder "cluster1"
                    (inr {| object.ClusterComputeResource_ref :=
                              Demo.ref "ClusterComputeResource" "domain-c7" |}))
                 (calls (snd (main (Demo.vcenter Demo.table None) Demo.args
                                   (start Demo.env 0)))))
    by find_in_log.
  split; [exact H|].
  exact (main_cluster_lookup_name nat (Demo.vcenter Demo.table None)
           Demo.args Demo.env 0 Background Demo.finder "cluster1"
           (inr {| object.ClusterComputeResource_ref :=
                     Demo.ref "ClusterComputeResource" "domain-c7" |}) H).
Defined.

(** ** Scope of the lookups *)




(** ** Certificate verification *)

(** C10. Whatever the context, the environment and the server, the first
    thing [createClient] does with the library is to hand it a soap client
    built for the URL of the environment with the insecure flag true, and
    it builds no other. *)
Theorem createClient_insecure :
  forall (S : Type) (R : Remote S) (ctx : Context) (env : Environ) (s : S),
  exists r rest,
    calls (snd (createClient R ctx (start env s)))
    = Call_NewClient ctx
        (soap.NewClient
           {| url.Scheme := "https";
              url.User := Some (url.UserPassword (getenv env "GOVC_USERNAME")
                                                 (getenv env "GOVC_PASSWORD"));
              url.Host := getenv env "GOVC_URL";
              url.Path := "/sdk" |}
           true) r
      :: rest
    /\ forall ctx' sc r', ~ In (Call_NewClient ctx' sc r') rest.
Proof.
  intros S R ctx env s. follow_run; do 2 eexists; (split; [reflexivity|]);
    intros ctx' sc r' H; in_log.
Qed.

(** In a run of the program too, every soap client handed to the library
    has the insecure flag true. *)
Lemma main_soap_client_insecure {S : Type} (R : Remote S) (args : CommandLine)
    (env : Environ) (s : S) (ctx : Context) (sc : soap.Client)
    (r : result vim25.Client) :
  In (Call_NewClient ctx sc r) (calls (snd (main R args (start env s)))) ->
  soap.insecure sc = true.
Proof.
  intros Hin.
  destruct (main_calls R args env s) as [E | [_ E]]; rewrite E in Hin;
    [destruct Hin|].
  apply doThings_soap_client in Hin. now subst sc.
Qed.

(** * Further properties of the program *)

(** ** [createClient] *)

(** X1. When [createClient] returns a client, the library was called
    exactly twice, to create the vim25 client for the URL of the
    environment and to log in with the credentials of that URL, both with
    success; the client returned holds the vim25 client the first call
    returned and a session manager made of it. *)
Theorem createClient_ok_inv :
  forall (S : Type) (R : Remote S) (ctx : Context) (env : Environ) (s : S)
         (c : govmomi.Client),
    fst (createClient R ctx (start env s)) = Returns (inr c) ->
    calls (snd (createClient R ctx (start env s)))
    = [ Call_NewClient ctx (soap.NewClient (clientURL env) true)
          (inr (govmomi.Client_ c));
        Call_Login ctx (session.NewManager (govmomi.Client_ c))
          (url.User (clientURL env)) None ]
    /\ govmomi.SessionManager c = session.NewManager (govmomi.Client_ c).
Proof.
  intros S R ctx env s c. follow_run; intros H; try discriminate H.
  injection H as <-. split; reflexivity.
Qed.

(** X1 at work. *)
Lemma createClient_ok_inv_witness :
  fst (createClient (Demo.vcenter Demo.table None) Background (start Demo.env 0))
  = Returns (inr {| govmomi.Client_ := Demo.client;
                    govmomi.SessionManager := session.NewManager Demo.client |})
  /\ calls (snd (createClient (Demo.vcenter Demo.table None) Background
                   (start Demo.env 0)))
     = [ Call_NewClient Background (soap.NewClient (clientURL Demo.env) true)
           (inr Demo.client);
         Call_Login Background (session.NewManager Demo.client)
           (url.User (clientURL Demo.env)) None ]
  /\ session.NewManager Demo.client = session.NewManager Demo.client.
Proof.
  assert (H : fst (createClient (Demo.vcenter Demo.table None) Background
                     (start Demo.env 0))
              = Returns (inr {| govmomi.Client_ := Demo.client;
                                govmomi.SessionManager :=
                                  session.NewManager Demo.client |}))
    by reflexivity.
  split; [exact H|].
  exact (createClient_ok_inv nat (Demo.vcenter Demo.table None) Background
           Demo.env 0 _ H).
Defined.

(** X2. When [createClient] returns an error, the last library call it
    made is the one that failed, and the error returned is the error of
    that call behind the hint about the three variables: either the
    creation of the vim25 client failed and no login was attempted, or the
    creation succeeded and the login failed. *)
Theorem createClient_error_inv :
  forall (S : Type) (R : Remote S) (ctx : Context) (env : Environ) (s : S)
         (msg : error),
    fst (createClient R ctx (start env s)) = Returns (inl msg) ->
    (exists err,
        calls (snd (createClient R ctx (start env s)))
        = [ Call_NewClient ctx (soap.NewClient (clientURL env) true) (inl err) ] /\
        msg = "could not create new vim25 govmomi client, did you set GOVC_USERNAME, GOVC_PASSWORD, GOVC_URL?: " ++ err)
    \/
    (exists vimClient err,
        calls (snd (createClient R ctx (start env s)))
        = [ Call_NewClient ctx (soap.NewClient (clientURL env) true) (inr vimClient);
            Call_Login ctx (session.NewManager vimClient)
              (url.User (clientURL env)) (Some err) ] /\
        msg = "could not login via vim25 session manager, did you set GOVC_USERNAME, GOVC_PASSWORD, GOVC_URL?: " ++ err).
Proof.
  intros S R ctx env s msg. follow_run; intros H; try discriminate H;
    injection H as <-.
  - left. eexists. split; reflexivity.
  - right. do 2 eexists. split; reflexivity.
Qed.

(** X2 at work: the login is refused. *)
Lemma createClient_error_inv_witness :
  fst (createClient Demo.locked Background (start Demo.env 0))
  = Returns (inl "could not login via vim25 session manager, did you set GOVC_USERNAME, GOVC_PASSWORD, GOVC_URL?: incorrect user name or password")
  /\ ((exists err,
         calls (snd (createClient Demo.locked Background (start Demo.env 0)))
         = [ Call_NewClient Background (soap.NewClient (clientURL Demo.env) true)
               (inl err) ] /\
         "could not login via vim25 session manager, did you set GOVC_USERNAME, GOVC_PASSWORD, GOVC_URL?: incorrect user name or password"
         = "could not create new vim25 govmomi client, did you set GOVC_USERNAME, GOVC_PASSWORD, GOVC_URL?: " ++ err)
      \/
      (exists vimClient err,
         calls (snd (createClient Demo.locked Background (start Demo.env 0)))
         = [ Call_NewClient Background (soap.NewClient (clientURL Demo.env) true)
               (inr vimClient);
             Call_Login Background (session.NewManager vimClient)
               (url.User (clientURL Demo.env)) (Some err) ] /\
         "could not login via vim25 session manager, did you set GOVC_USERNAME, GOVC_PASSWORD, GOVC_URL?: incorrect user name or password"
         = "could not login via vim25 session manager, did you set GOVC_USERNAME, GOVC_PASSWORD, GOVC_URL?: " ++ err)).
Proof.
  assert (H : fst (createClient Demo.locked Background (start Demo.env 0))
              = Returns (inl "could not login via vim25 session manager, did you set GOVC_USERNAME, GOVC_PASSWORD, GOVC_URL?: incorrect user name or password"))
    by reflexivity.
  split; [exact H|].
  exact (createClient_error_inv nat Demo.locked Background Demo.env 0 _ H).
Defined.

(** ** The calls of [doThings], in order *)

(** X3. In every run of [doThings] the library calls are made in the order
    of the program text, the constructions of the two finders included:
    the [n] calls of a run are the first [n] of the eleven, so nothing is
    retried or skipped. *)
Theorem doThings_call_order :
  forall (S : Type) (R : Remote S) (env : Environ) (s : S)
         (ctx : Context) (dc cluster evcMode vmName : string),
    map call_kind (calls (snd (doThings R ctx dc cluster evcMode vmName (start env s))))
    = firstn (length (calls (snd (doThings R ctx dc cluster evcMode vmName
                                    (start env s)))))
             programOrder
    /\ length (calls (snd (doThings R ctx dc cluster evcMode vmName (start env s))))
       <= length programOrder.
Proof.
  intros S R env s ctx dc cluster evcMode vmName.
  follow_run; (split; [reflexivity | cbn; repeat constructor]).
Qed.

(** X4. A library call that answers with an error ends the run: it is the
    last call made, and [doThings] returns its error, wrapped with the hint
    of [createClient] for the first two calls and unchanged for the others
    (the construction of a finder returns no error). *)
Theorem doThings_stops_at_first_error :
  forall (S : Type) (R : Remote S) (env : Environ) (s : S)
         (ctx : Context) (dc cluster evcMode vmName : string)
         (e : Call) (err : error),
    In e (calls (snd (doThings R ctx dc cluster evcMode vmName (start env s)))) ->
    call_error e = Some err ->
    fst (doThings R ctx dc cluster evcMode vmName (start env s))
    = Returns (Some (reported e err))
    /\ exists before,
         calls (snd (doThings R ctx dc cluster evcMode vmName (start env s)))
         = (before ++ [e])%list.
Proof.
  intros S R env s ctx dc cluster evcMode vmName e err.
  follow_run; intros H Herr;
    repeat match goal with
           | H : In _ (_ :: _) |- _ => destruct H as [H|H]
           | H : In _ [] |- _ => destruct H
           | H : _ \/ _ |- _ => destruct H as [H|H]
           | H : False |- _ => destruct H
           end;
    subst e; cbn in Herr; try discriminate Herr;
    first [injection Herr as <- | subst];
    (split; [reflexivity|]);
    match goal with |- exists before, ?log = _ => exists (removelast log) end;
    reflexivity.
Qed.

(** X4 at work: the refused login ends the run before any lookup. *)
Lemma doThings_stops_at_first_error_witness :
  In (Call_Login Background (session.NewManager Demo.client)
        (url.User (clientURL Demo.env)) (Some "incorrect user name or password"))
     (calls (snd (doThings Demo.locked Background "dc1" "cluster1"
                    "intel-sandybridge" "vm1" (start Demo.env 0)))) /\
  fst (doThings Demo.locked Background "dc1" "cluster1" "intel-sandybridge" "vm1"
         (start Demo.env 0))
  = Returns (Some (reported
                     (Call_Login Background (session.NewManager Demo.client)
                        (url.User (clientURL Demo.env))
                        (Some "incorrect user name or password"))
                     "incorrect user name or password")) /\
  exists before,
    calls (snd (doThings Demo.locked Background "dc1" "cluster1"
                  "intel-sandybridge" "vm1" (start Demo.env 0)))
    = (before
       ++ [Call_Login Background (session.NewManager Demo.client)
             (url.User (clientURL Demo.env))
             (Some "incorrect user name or password")])%list.
Proof.
  assert (H : In (Call_Login Background (session.NewManager Demo.client)
                    (url.User (clientURL Demo.env))
                    (Some "incorrect user name or password"))
                 (calls (snd (doThings Demo.locked Background "dc1" "cluster1"
                                "intel-sandybridge" "vm1" (start Demo.env 0)))))
    by find_in_log.
  split; [exact H|].
  exact (doThings_stops_at_first_error nat Demo.locked Demo.env 0 Background
           "dc1" "cluster1" "intel-sandybridge" "vm1" _
           "incorrect user name or password" H eq_refl).
Defined.

(** X5. When the EVC manager call succeeds with a nil reference, the
    dereference of line 80 panics: [doThings] returns nothing, and that
    call is the last one made, so nothing is read or applied. *)
Theorem doThings_panics_on_nil_manager :
  forall (S : Type) (R : Remote S) (env : Environ) (s : S)
         (ctx : Context) (dc cluster evcMode vmName : string)
         (ctx' : Context) (rt : soap.RoundTripper) (req : types.EvcManager),
    In (Call_EvcManager ctx' rt req (inr {| types.EvcManager_Returnval := None |}))
       (calls (snd (doThings R ctx dc cluster evcMode vmName (start env s)))) ->
    fst (doThings R ctx dc cluster evcMode vmName (start env s)) = Panics
    /\ exists before,
         calls (snd (doThings R ctx dc cluster evcMode vmName (start env s)))
         = (before
            ++ [Call_EvcManager ctx' rt req
                  (inr {| types.EvcManager_Returnval := None |})])%list.
Proof.
  intros S R env s ctx dc cluster evcMode vmName ctx' rt req.
  follow_run; intros H; in_log;
    (split; [reflexivity|]);
    match goal with |- exists before, ?log = _ => exists (removelast log) end;
    reflexivity.
Qed.

(** X5 at work. *)
Lemma doThings_panics_on_nil_manager_witness :
  In (Call_EvcManager Background {| soap.transport := 1 |}
        {| types.EvcManager_This := Demo.ref "ClusterComputeResource" "domain-c7" |}
        (inr {| types.EvcManager_Returnval := None |}))
     (calls (snd (doThings Demo.unmanaged Background "dc1" "cluster1"
                    "intel-sandybridge" "vm1" (start Demo.env 0)))) /\
  fst (doThings Demo.unmanaged Background "dc1" "cluster1" "intel-sandybridge" "vm1"
         (start Demo.env 0)) = Panics /\
  exists before,
    calls (snd (doThings Demo.unmanaged Background "dc1" "cluster1"
                  "intel-sandybridge" "vm1" (start Demo.env 0)))
    = (before
       ++ [Call_EvcManager Background {| soap.transport := 1 |}
             {| types.EvcManager_This :=
                  Demo.ref "ClusterComputeResource" "domain-c7" |}
             (inr {| types.EvcManager_Returnval := None |})])%list.
Proof.
  assert (H : In (Call_EvcManager Background {| soap.transport := 1 |}
                    {| types.EvcManager_This :=
                         Demo.ref "ClusterComputeResource" "domain-c7" |}
                    (inr {| types.EvcManager_Returnval := None |}))
                 (calls (snd (doThings Demo.unmanaged Background "dc1" "cluster1"
                                "intel-sandybridge" "vm1" (start Demo.env 0)))))
    by find_in_log.
  split; [exact H|].
  exact (doThings_panics_on_nil_manager nat Demo.unmanaged Demo.env 0 Background
           "dc1" "cluster1" "intel-sandybridge" "vm1" _ _ _ H).
Defined.

(** [doThings] returns nil only when all eleven calls were made and the
    wait, the last of them, reported success. *)
Lemma doThings_nil_inv {S : Type} (R : Remote S) (env : Environ) (s : S)
    (ctx : Context) (dc cluster evcMode vmName : string) :
  fst (doThings R ctx dc cluster evcMode vmName (start env s)) = Returns None ->
  length (calls (snd (doThings R ctx dc cluster evcMode vmName (start env s)))) = 11
  /\ exists before t,
       calls (snd (doThings R ctx dc cluster evcMode vmName (start env s)))
       = (before ++ [Call_Wait ctx t None])%list.
Proof.
  follow_run; intros H; try discriminate H; injection H as ->.
  split; [reflexivity|].
  match goal with |- exists before t, ?log = _ => exists (removelast log) end.
  eexists. reflexivity.
Qed.

(** X6. [main] returns normally, the exit code 0 of the process, only
    after a wait that reported success, which is then the last of eleven
    library calls (the nine the program makes by name and the
    constructions of the two finders): no success is reported on a
    configuration error, a failed step or an unfinished task. *)
Theorem main_returns_only_after_successful_wait :
  forall (S : Type) (R : Remote S) (args : CommandLine) (env : Environ) (s : S),
    fst (main R args (start env s)) = Returns tt ->
    length (calls (snd (main R args (start env s)))) = 11
    /\ exists before t,
         calls (snd (main R args (start env s)))
         = (before ++ [Call_Wait Background t None])%list.
Proof.
  intros S R args env s.
  destruct (main_run R args env s) as [(msg & _ & ->) | (_ & _ & _ & ->)];
    [discriminate|].
  pose proof (doThings_nil_inv R env s Background
                (flag_String (arg_dc args) EmptyString)
                (flag_String (arg_cluster args) EmptyString)
                (flag_String (arg_evcmode args) "intel-sandybridge")
                (flag_String (arg_vm args) EmptyString)) as Hnil.
  destruct (doThings R Background _ _ _ _ (start env s)) as [[[err|]| |] p];
    cbn [fst snd calls] in *; try discriminate.
  intros _. exact (Hnil eq_refl).
Qed.

(** X6 at work. *)
Lemma main_returns_only_after_successful_wait_witness :
  fst (main (Demo.vcenter Demo.table None) Demo.args (start Demo.env 0)) = Returns tt
  /\ length (calls (snd (main (Demo.vcenter Demo.table None) Demo.args
                           (start Demo.env 0)))) = 11
  /\ exists before t,
       calls (snd (main (Demo.vcenter Demo.table None) Demo.args (start Demo.env 0)))
       = (before ++ [Call_Wait Background t None])%list.
Proof.
  assert (H : fst (main (Demo.vcenter Demo.table None) Demo.args (start Demo.env 0))
              = Returns tt) by reflexivity.
  split; [exact H|].
  exact (main_returns_only_after_successful_wait nat (Demo.vcenter Demo.table None)
           Demo.args Demo.env 0 H).
Defined.

(** ** What is written *)



(** X8. A run of [doThings] that submits no apply request writes nothing:
    no mask line and no status line appear before the masks are resolved,
    nor when their resolution fails. *)
Theorem doThings_silent_without_apply :
  forall (S : Type) (R : Remote S) (env : Environ) (s : S)
         (ctx : Context) (dc cluster evcMode vmName : string),
    (forall ctx' c req r,
        ~ In (Call_ApplyEvcModeVM_Task ctx' c req r)
             (calls (snd (doThings R ctx dc cluster evcMode vmName (start env s))))) ->
    written (snd (doThings R ctx dc cluster evcMode vmName (start env s))) = [].
Proof.
  intros S R env s ctx dc cluster evcMode vmName.
  follow_run; intros H; try reflexivity;
    exfalso; eapply H; cbn; auto 14.
Qed.

(** X8 at work: the baseline is not in the table. *)
Lemma doThings_silent_without_apply_witness :
  (forall ctx' c req r,
      ~ In (Call_ApplyEvcModeVM_Task ctx' c req r)
           (calls (snd (doThings (Demo.vcenter Demo.table None) Background "dc1"
                          "cluster1" "intel-haswell" "vm1" (start Demo.env 0))))) /\
  written (snd (doThings (Demo.vcenter Demo.table None) Background "dc1"
                  "cluster1" "intel-haswell" "vm1" (start Demo.env 0))) = [].
Proof.
  assert (H : forall ctx' c req r,
             ~ In (Call_ApplyEvcModeVM_Task ctx' c req r)
                  (calls (snd (doThings (Demo.vcenter Demo.table None) Background
                                 "dc1" "cluster1" "intel-haswell" "vm1"
                                 (start Demo.env 0))))).
  { intros ctx' c req r Hin. vm_compute in Hin.
    repeat (destruct Hin as [Hin|Hin]; [discriminate Hin|]). exact Hin. }
  split; [exact H|].
  exact (doThings_silent_without_apply nat (Demo.vcenter Demo.table None) Demo.env 0
           Background "dc1" "cluster1" "intel-haswell" "vm1" H).
Defined.

(** ** What each call is given *)

(** X9. The apply request of a run targets the VM that the VM lookup of
    the same run returned for the name [doThings] was given, and is sent
    through the client of the session. *)
Theorem doThings_apply_targets_found_vm :
  forall (S : Type) (R : Remote S) (env : Environ) (s : S)
         (ctx : Context) (dc cluster evcMode vmName : string)
         (ctx' : Context) (c : vim25.Client) (req : types.ApplyEvcModeVM_Task)
         (r : result types.ApplyEvcModeVM_TaskResponse),
    In (Call_ApplyEvcModeVM_Task ctx' c req r)
       (calls (snd (doThings R ctx dc cluster evcMode vmName (start env s)))) ->
    exists f vm,
      In (Call_VirtualMachine ctx f vmName (inr vm))
         (calls (snd (doThings R ctx dc cluster evcMode vmName (start env s)))) /\
      find.client f = c /\
      types.This req = object.VirtualMachine_ref vm.
Proof.
  intros S R env s ctx dc cluster evcMode vmName ctx' c req r.
  follow_run; intros H; in_log;
    do 2 eexists; (split; [cbn; eauto 14 | split; reflexivity]).
Qed.

(** X9 at work. *)
Lemma doThings_apply_targets_found_vm_witness :
  In (Call_ApplyEvcModeVM_Task Background Demo.client Demo.request (inr Demo.response))
     (calls (snd (demo_run "cluster1" None))) /\
  exists f vm,
    In (Call_VirtualMachine Background f "vm1" (inr vm))
       (calls (snd (demo_run "cluster1" None))) /\
    find.client f = Demo.client /\
    types.This Demo.request = object.VirtualMachine_ref vm.
Proof.
  assert (H : In (Call_ApplyEvcModeVM_Task Background Demo.client Demo.request
                    (inr Demo.response))
                 (calls (snd (demo_run "cluster1" None)))) by find_in_log.
  split; [exact H|].
  exact (doThings_apply_targets_found_vm nat (Demo.vcenter Demo.table None)
           Demo.env 0 Background "dc1" "cluster1" "intel-sandybridge" "vm1"
           Background Demo.client Demo.request (inr Demo.response) H).
Defined.

(** X10. The table of supported modes is read, whole (with a nil property
    list), from the EVC manager that the EVC manager call returned for the
    cluster which the cluster lookup of the same run returned. *)
Theorem doThings_reads_table_of_found_cluster :
  forall (S : Type) (R : Remote S) (env : Environ) (s : S)
         (ctx : Context) (dc cluster evcMode vmName : string)
         (ctx' : Context) (pc : property.Collector)
         (obj : types.ManagedObjectReference) (ps : option (list string))
         (r : result mo.ClusterEVCManager),
    In (Call_RetrieveOne ctx' pc obj ps r)
       (calls (snd (doThings R ctx dc cluster evcMode vmName (start env s)))) ->
    ps = None /\
    exists f clusterObj rt,
      In (Call_ClusterComputeResourceOrDefault ctx f cluster (inr clusterObj))
         (calls (snd (doThings R ctx dc cluster evcMode vmName (start env s)))) /\
      In (Call_EvcManager ctx rt
            {| types.EvcManager_This := object.ClusterComputeResource_ref clusterObj |}
            (inr {| types.EvcManager_Returnval := Some obj |}))
         (calls (snd (doThings R ctx dc cluster evcMode vmName (start env s)))).
Proof.
  intros S R env s ctx dc cluster evcMode vmName ctx' pc obj ps r.
  follow_run; intros H; in_log;
    (split; [reflexivity|]); do 3 eexists; split; cbn; eauto 14.
Qed.

(** X10 at work. *)
Lemma doThings_reads_table_of_found_cluster_witness :
  In (Call_RetrieveOne Background (property.DefaultCollector Demo.client)
        (Demo.ref "ClusterEVCManager" "evcmanager-7") None
        (inr {| mo.EvcState := {| types.SupportedEVCMode := Demo.table |} |}))
     (calls (snd (demo_run "cluster1" None))) /\
  @None (list string) = None /\
  exists f clusterObj rt,
    In (Call_ClusterComputeResourceOrDefault Background f "cluster1" (inr clusterObj))
       (calls (snd (demo_run "cluster1" None))) /\
    In (Call_EvcManager Background rt
          {| types.EvcManager_This := object.ClusterComputeResource_ref clusterObj |}
          (inr {| types.EvcManager_Returnval :=
                    Some (Demo.ref "ClusterEVCManager" "evcmanager-7") |}))
       (calls (snd (demo_run "cluster1" None))).
Proof.
  assert (H : In (Call_RetrieveOne Background (property.DefaultCollector Demo.client)
                    (Demo.ref "ClusterEVCManager" "evcmanager-7") None
                    (inr {| mo.EvcState :=
                              {| types.SupportedEVCMode := Demo.table |} |}))
                 (calls (snd (demo_run "cluster1" None)))) by find_in_log.
  split; [exact H|].
  exact (doThings_reads_table_of_found_cluster nat (Demo.vcenter Demo.table None)
           Demo.env 0 Background "dc1" "cluster1" "intel-sandybridge" "vm1"
           _ _ _ _ _ H).
Defined.

(** X11. The task a run waits on is the one the apply call of the same run
    returned, on the client the request was sent through. *)
Theorem doThings_waits_on_returned_task :
  forall (S : Type) (R : Remote S) (env : Environ) (s : S)
         (ctx : Context) (dc cluster evcMode vmName : string)
         (ctx' : Context) (t : object.Task) (r : option error),
    In (Call_Wait ctx' t r)
       (calls (snd (doThings R ctx dc cluster evcMode vmName (start env s)))) ->
    exists c req res,
      In (Call_ApplyEvcModeVM_Task ctx c req (inr res))
         (calls (snd (doThings R ctx dc cluster evcMode vmName (start env s)))) /\
      t = object.NewTask c (types.Returnval res).
Proof.
  intros S R env s ctx dc cluster evcMode vmName ctx' t r.
  follow_run; intros H; in_log;
    do 3 eexists; (split; [cbn; eauto 14 | reflexivity]).
Qed.

(** X11 at work. *)
Lemma doThings_waits_on_returned_task_witness :
  In (Call_Wait Background Demo.task None) (calls (snd (demo_run "cluster1" None))) /\
  exists c req res,
    In (Call_ApplyEvcModeVM_Task Background c req (inr res))
       (calls (snd (demo_run "cluster1" None))) /\
    Demo.task = object.NewTask c (types.Returnval res).
Proof.
  assert (H : In (Call_Wait Background Demo.task None)
                 (calls (snd (demo_run "cluster1" None)))) by find_in_log.
  split; [exact H|].
  exact (doThings_waits_on_returned_task nat (Demo.vcenter Demo.table None)
           Demo.env 0 Background "dc1" "cluster1" "intel-sandybridge" "vm1"
           _ _ _ H).
Defined.

(** X12. One session serves the whole run: every call that takes a client
    (the login, the two finders and the three lookups on them, the
    property read, the apply call and the wait) is made through the vim25
    client that the first call of the run returned. *)
Theorem doThings_single_client :
  forall (S : Type) (R : Remote S) (env : Environ) (s : S)
         (ctx : Context) (dc cluster evcMode vmName : string)
         (e : Call) (c : vim25.Client),
    In e (calls (snd (doThings R ctx dc cluster evcMode vmName (start env s)))) ->
    call_client e = Some c ->
    In (Call_NewClient ctx (soap.NewClient (clientURL env) true) (inr c))
       (calls (snd (doThings R ctx dc cluster evcMode vmName (start env s)))).
Proof.
  intros S R env s ctx dc cluster evcMode vmName e c.
  follow_run; intros H Hc;
    repeat match goal with
           | H : In _ (_ :: _) |- _ => destruct H as [H|H]
           | H : In _ [] |- _ => destruct H
           | H : _ \/ _ |- _ => destruct H as [H|H]
           | H : False |- _ => destruct H
           end;
    subst e; cbn in Hc; try discriminate Hc; injection Hc as <-; now left.
Qed.

(** X12 at work: the wait. *)
Lemma doThings_single_client_witness :
  In (Call_Wait Background Demo.task None) (calls (snd (demo_run "cluster1" None))) /\
  In (Call_NewClient Background (soap.NewClient (clientURL Demo.env) true)
        (inr Demo.client))
     (calls (snd (demo_run "cluster1" None))).
Proof.
  assert (H : In (Call_Wait Background Demo.task None)
                 (calls (snd (demo_run "cluster1" None)))) by find_in_log.
  split; [exact H|].
  exact (doThings_single_client nat (Demo.vcenter Demo.table None)
           Demo.env 0 Background "dc1" "cluster1" "intel-sandybridge" "vm1"
           _ Demo.client H eq_refl).
Defined.

(** ** More on the resolution of the masks *)

(** The scan returns the list it started with or the masks of the first
    entry that has the key. *)
Lemma scan_cases (modes : list types.EVCMode) (n : string)
    (masks : list types.HostFeatureMask) :
  scanSupportedEVCMode modes n masks = masks \/
  exists before e after,
    modes = (before ++ e :: after)%list /\
    (forall x, In x before -> modeKey x <> n) /\
    modeKey e = n /\
    scanSupportedEVCMode modes n masks = types.FeatureMask e.
Proof.
  induction modes as [|e rest IH]; cbn; [now left|].
  destruct (String.eqb_spec (types.ElementDescription_Key (types.ElementDescription_ e)) n)
    as [Heq|Hne].
  - right. exists [], e, rest. repeat split; [intros x [] | exact Heq].
  - destruct IH as [IH | (before & e' & after & -> & Hno & He' & IH)]; [now left|].
    right. exists (e :: before), e', after. repeat split; try assumption.
    intros x [<-|Hx]; [exact Hne | now apply Hno].
Qed.

(** A resolution that succeeds returns a list that is not empty. *)
Lemma resolveMasks_nonempty (modes : list types.EVCMode) (n : string)
    (masks : list types.HostFeatureMask) :
  resolveMasks modes n = inr masks -> masks <> [].
Proof.
  unfold resolveMasks.
  destruct (scanSupportedEVCMode modes n []) as [|mask rest]; cbn;
    [discriminate | intros [= <-]; discriminate].
Qed.

(** X13. A resolution that succeeds returns masks that are in the table
    under the requested name: the list returned is the mask list, not
    empty, of an entry whose key is exactly the name and that no entry
    with that key precedes. *)
Theorem resolveMasks_ok_inv :
  forall (modes : list types.EVCMode) (n : string)
         (masks : list types.HostFeatureMask),
    resolveMasks modes n = inr masks ->
    masks <> [] /\
    exists before e after,
      modes = (before ++ e :: after)%list /\
      (forall x, In x before -> modeKey x <> n) /\
      modeKey e = n /\
      types.FeatureMask e = masks.
Proof.
  intros modes n masks H. split; [exact (resolveMasks_nonempty _ _ _ H)|].
  unfold resolveMasks in H.
  destruct (scan_cases modes n []) as [E | (before & e & after & -> & Hno & He & E)];
    rewrite E in H; cbn in H; [discriminate H|].
  exists before, e, after. repeat split; try assumption.
  destruct (Nat.eqb _ 0); [discriminate H | now injection H].
Qed.

(** X13 at work. *)
Lemma resolveMasks_ok_inv_witness :
  resolveMasks Demo.table "intel-westmere" = inr Demo.westmere /\
  Demo.westmere <> [] /\
  exists before e after,
    Demo.table = (before ++ e :: after)%list /\
    (forall x, In x before -> modeKey x <> "intel-westmere") /\
    modeKey e = "intel-westmere" /\
    types.FeatureMask e = Demo.westmere.
Proof.
  assert (H : resolveMasks Demo.table "intel-westmere" = inr Demo.westmere)
    by reflexivity.
  split; [exact H|].
  exact (resolveMasks_ok_inv Demo.table "intel-westmere" Demo.westmere H).
Defined.

(** X14. No run of [doThings] submits an apply request with an empty mask
    list. *)
Theorem doThings_never_applies_empty_masks :
  forall (S : Type) (R : Remote S) (env : Environ) (s : S)
         (ctx : Context) (dc cluster evcMode vmName : string)
         (ctx' : Context) (c : vim25.Client) (req : types.ApplyEvcModeVM_Task)
         (r : result types.ApplyEvcModeVM_TaskResponse),
    In (Call_ApplyEvcModeVM_Task ctx' c req r)
       (calls (snd (doThings R ctx dc cluster evcMode vmName (start env s)))) ->
    types.Mask req <> [].
Proof.
  intros S R env s ctx dc cluster evcMode vmName ctx' c req r.
  follow_run; intros H; in_log; cbn; eapply resolveMasks_nonempty; eassumption.
Qed.

(** X14 at work. *)
Lemma doThings_never_applies_empty_masks_witness :
  In (Call_ApplyEvcModeVM_Task Background Demo.client Demo.request (inr Demo.response))
     (calls (snd (demo_run "cluster1" None))) /\
  types.Mask Demo.request <> [].
Proof.
  assert (H : In (Call_ApplyEvcModeVM_Task Background Demo.client Demo.request
                    (inr Demo.response))
                 (calls (snd (demo_run "cluster1" None)))) by find_in_log.
  split; [exact H|].
  exact (doThings_never_applies_empty_masks nat (Demo.vcenter Demo.table None)
           Demo.env 0 Background "dc1" "cluster1" "intel-sandybridge" "vm1"
           Background Demo.client Demo.request (inr Demo.response) H).
Defined.

(** ** The run that succeeds *)

(** Uses what a healthy server answers to the call under consideration. *)
Ltac healthy_answer H :=
  let Hh := fresh "Hh" in
  let Hm := fresh "Hm" in
  match goal with
  | E : vim25_NewClient _ ?a ?b ?s = _ |- _ =>
      destruct (healthy_NewClient _ _ H a b s) as [? Hh]; rewrite E in Hh; clear E
  | E : Manager_Login _ ?a ?b ?c ?s = _ |- _ =>
      pose proof (healthy_Login _ _ H a b c s) as Hh; rewrite E in Hh; clear E
  | E : Finder_Datacenter _ ?a ?b ?c ?s = _ |- _ =>
      destruct (healthy_Datacenter _ _ H a b c s) as [? Hh]; rewrite E in Hh; clear E
  | E : Finder_VirtualMachine _ ?a ?b ?c ?s = _ |- _ =>
      destruct (healthy_VirtualMachine _ _ H a b c s) as [? Hh]; rewrite E in Hh;
      clear E
  | E : Finder_ClusterComputeResourceOrDefault _ ?a ?b ?c ?s = _ |- _ =>
      destruct (healthy_Cluster _ _ H a b c s) as [? Hh]; rewrite E in Hh; clear E
  | E : methods_EvcManager _ ?a ?b ?c ?s = _ |- _ =>
      destruct (healthy_EvcManager _ _ H a b c s) as [? Hh]; rewrite E in Hh; clear E
  | E : Collector_RetrieveOne _ ?a ?b ?c ?d ?s = _ |- _ =>
      destruct (healthy_RetrieveOne _ _ H a b c d s) as (? & ? & Hh & Hm);
      rewrite E in Hh; clear E
  | E : methods_ApplyEvcModeVM_Task _ ?a ?b ?c ?s = _ |- _ =>
      destruct (healthy_Apply _ _ H a b c s) as [? Hh]; rewrite E in Hh; clear E
  | E : Task_Wait _ ?a ?b ?s = _ |- _ =>
      pose proof (healthy_Wait _ _ H a b s) as Hh; rewrite E in Hh; clear E
  end;
  cbn in Hh; try discriminate Hh; try (injection Hh as <-); try subst.

(** X15. Against a server on which every call succeeds and whose EVC
    manager reports masks for the requested baseline, [doThings] returns
    nil after making all eleven calls (the nine it makes by name and the
    constructions of the two finders). *)
Theorem doThings_succeeds_on_healthy_server :
  forall (S : Type) (R : Remote S) (env : Environ) (s : S)
         (ctx : Context) (dc cluster evcMode vmName : string),
    Healthy R evcMode ->
    fst (doThings R ctx dc cluster evcMode vmName (start env s)) = Returns None
    /\ length (calls (snd (doThings R ctx dc cluster evcMode vmName (start env s))))
       = 11.
Proof.
  intros S R env s ctx dc cluster evcMode vmName H.
  follow_run; repeat healthy_answer H; try congruence.
  split; reflexivity.
Qed.

(** The server of the scenario is healthy for a baseline of its table. *)
Lemma Demo_vcenter_healthy :
  Healthy (Demo.vcenter Demo.table None) "intel-sandybridge".
Proof.
  constructor; intros; cbn; try reflexivity.
  - eexists; reflexivity.
  - eexists; reflexivity.
  - eexists; reflexivity.
  - eexists; reflexivity.
  - eexists; reflexivity.
  - do 2 eexists; split; reflexivity.
  - eexists; reflexivity.
Qed.

(** X15 at work. *)
Lemma doThings_succeeds_on_healthy_server_witness :
  Healthy (Demo.vcenter Demo.table None) "intel-sandybridge"
  /\ fst (demo_run "cluster1" None) = Returns None
  /\ length (calls (snd (demo_run "cluster1" None))) = 11.
Proof.
  split; [exact Demo_vcenter_healthy|].
  exact (doThings_succeeds_on_healthy_server nat (Demo.vcenter Demo.table None)
           Demo.env 0 Background "dc1" "cluster1" "intel-sandybridge" "vm1"
           Demo_vcenter_healthy).
Defined.

(** ** More on the runs of [main] *)

(** The datacenter lookup gets the name as given. *)
Lemma doThings_dc_lookup {S : Type} (R : Remote S) (env : Environ) (s : S)
    (ctx : Context) (dc cluster evcMode vmName : string)
    (ctx' : Context) (f : find.Finder) (path : string)
    (r : result object.Datacenter) :
  In (Call_Datacenter ctx' f path r)
     (calls (snd (doThings R ctx dc cluster evcMode vmName (start env s)))) ->
  path = dc.
Proof.
  follow_run; intros H; in_log; reflexivity.
Qed.

(** A run of [main] that calls the library at all has passed both checks:
    the three flags and the three variables are not empty, and its calls
    are those of [doThings] on the flags. *)
Lemma main_calls_checked {S : Type} (R : Remote S) (args : CommandLine)
    (env : Environ) (s : S) :
  calls (snd (main R args (start env s))) <> [] ->
  flag_String (arg_dc args) EmptyString <> EmptyString /\
  flag_String (arg_vm args) EmptyString <> EmptyString /\
  getenv env "GOVC_PASSWORD" <> EmptyString /\
  getenv env "GOVC_USERNAME" <> EmptyString /\
  getenv env "GOVC_URL" <> EmptyString /\
  calls (snd (main R args (start env s))) =
    calls (snd (doThings R Background
                  (flag_String (arg_dc args) EmptyString)
                  (flag_String (arg_cluster args) EmptyString)
                  (flag_String (arg_evcmode args) "intel-sandybridge")
                  (flag_String (arg_vm args) EmptyString)
                  (start env s))).
Proof.
  unfold main.
  destruct (flag_String (arg_dc args) EmptyString =? EmptyString) eqn:Edc;
    [intros H; now elim H|].
  destruct (flag_String (arg_cluster args) EmptyString =? EmptyString) eqn:Ecl;
    [intros H; now elim H|].
  destruct (flag_String (arg_vm args) EmptyString =? EmptyString) eqn:Evm;
    [intros H; now elim H|].
  cbn [orb]. rewrite !bind_Getenv. cbn [environ start].
  destruct (getenv env "GOVC_PASSWORD" =? EmptyString) eqn:Epw;
    [intros H; now elim H|].
  destruct (getenv env "GOVC_USERNAME" =? EmptyString) eqn:Eus;
    [intros H; now elim H|].
  destruct (getenv env "GOVC_URL" =? EmptyString) eqn:Eur;
    [intros H; now elim H|].
  intros _. apply String.eqb_neq in Edc, Evm, Epw, Eus, Eur.
  repeat (split; [assumption|]).
  cbn [orb]. unfold bind at 1.
  destruct (doThings R Background _ _ _ _ (start env s)) as [[[err|]| |] p];
    reflexivity.
Qed.

(** X16. In every run of the program the datacenter lookup receives the
    value of the datacenter flag and the VM lookup receives the value of
    the VM flag; neither name is ever empty. *)
Theorem main_lookup_names :
  forall (S : Type) (R : Remote S) (args : CommandLine) (env : Environ) (s : S)
         (e : Call),
    In e (calls (snd (main R args (start env s)))) ->
    match e with
    | Call_Datacenter _ _ path _ =>
        path = flag_String (arg_dc args) EmptyString /\ path <> EmptyString
    | Call_VirtualMachine _ _ path _ =>
        path = flag_String (arg_vm args) EmptyString /\ path <> EmptyString
    | _ => True
    end.
Proof.
  intros S R args env s e Hin.
  destruct (main_calls_checked R args env s) as (Hdc & Hvm & _ & _ & _ & E);
    [intros E; rewrite E in Hin; destruct Hin|].
  rewrite E in Hin. destruct e; try exact I.
  - apply doThings_dc_lookup in Hin. subst path.
    split; [reflexivity | assumption].
  - apply doThings_vm_lookup in Hin. destruct Hin as [-> _].
    split; [reflexivity | assumption].
Qed.

(** X16 at work: the datacenter lookup. *)
Lemma main_lookup_names_witness :
  In (Call_Datacenter Background Demo.finder "dc1" (inr Demo.datacenter))
     (calls (snd (main (Demo.vcenter Demo.table None) Demo.args (start Demo.env 0)))) /\
  "dc1" = flag_String (arg_dc Demo.args) EmptyString /\
  "dc1" <> EmptyString.
Proof.
  assert (H : In (Call_Datacenter Background Demo.finder "dc1" (inr Demo.datacenter))
                 (calls (snd (main (Demo.vcenter Demo.table None) Demo.args
                                   (start Demo.env 0)))))
    by find_in_log.
  split; [exact H|].
  exact (main_lookup_names nat (Demo.vcenter Demo.table None) Demo.args Demo.env 0
           _ H).
Defined.

(** X17. In every run of the program, the connection is made to the
    endpoint and with the principal and secret of the environment, none of
    them empty, over https and the sdk path. *)
Theorem main_connection_parameters :
  forall (S : Type) (R : Remote S) (args : CommandLine) (env : Environ) (s : S)
         (ctx : Context) (sc : soap.Client) (r : result vim25.Client),
    In (Call_NewClient ctx sc r) (calls (snd (main R args (start env s)))) ->
    soap.u sc = clientURL env /\
    getenv env "GOVC_URL" <> EmptyString /\
    getenv env "GOVC_USERNAME" <> EmptyString /\
    getenv env "GOVC_PASSWORD" <> EmptyString.
Proof.
  intros S R args env s ctx sc r Hin.
  destruct (main_calls_checked R args env s) as (_ & _ & Hpw & Hus & Hur & E);
    [intros E; rewrite E in Hin; destruct Hin|].
  rewrite E in Hin. apply doThings_soap_client in Hin. subst sc.
  repeat split; assumption.
Qed.

(** X17 at work. *)
Lemma main_connection_parameters_witness :
  In (Call_NewClient Background Demo.soapClient (inr Demo.client))
     (calls (snd (main (Demo.vcenter Demo.table None) Demo.args (start Demo.env 0)))) /\
  soap.u Demo.soapClient = clientURL Demo.env /\
  getenv Demo.env "GOVC_URL" <> EmptyString /\
  getenv Demo.env "GOVC_USERNAME" <> EmptyString /\
  getenv Demo.env "GOVC_PASSWORD" <> EmptyString.
Proof.
  assert (H : In (Call_NewClient Background Demo.soapClient (inr Demo.client))
                 (calls (snd (main (Demo.vcenter Demo.table None) Demo.args
                                   (start Demo.env 0)))))
    by find_in_log.
  split; [exact H|].
  exact (main_connection_parameters nat (Demo.vcenter Demo.table None) Demo.args
           Demo.env 0 _ _ _ H).
Defined.

(** X18. The only exit code [main] ever passes to [os.Exit] is 1, and it
    never does so silently: either no library call was made and the one
    thing written is a configuration message on the standard output, or
    the last thing written is the line of the error on the standard
    error. *)
Theorem main_exit_code :
  forall (S : Type) (R : Remote S) (args : CommandLine) (env : Environ) (s : S)
         (code : nat),
    fst (main R args (start env s)) = Exits code ->
    code = 1 /\
    ((exists msg,
         (msg = flagsRequired \/ msg = envRequired) /\
         calls (snd (main R args (start env s))) = [] /\
         written (snd (main R args (start env s))) = [(Stdout, msg ++ newline)])
     \/
     (exists before err,
         written (snd (main R args (start env s)))
         = (before ++ [(Stderr, ("error: " ++ err ++ newline)%string)])%list)).
Proof.
  intros S R args env s code.
  destruct (main_run R args env s) as [(msg & Hmsg & ->) | (_ & _ & _ & ->)].
  - intros [= <-]. split; [reflexivity|]. left. exists msg. now repeat split.
  - assert (Hne : forall c,
               fst (doThings R Background
                      (flag_String (arg_dc args) EmptyString)
                      (flag_String (arg_cluster args) EmptyString)
                      (flag_String (arg_evcmode args) "intel-sandybridge")
                      (flag_String (arg_vm args) EmptyString)
                      (start env s)) <> Exits c)
      by (intros c; follow_run; discriminate).
    destruct (doThings R Background _ _ _ _ (start env s)) as [[[err|]| |] p];
      cbn [fst snd written] in *; try discriminate.
    + intros [= <-]. split; [reflexivity|]. right. now exists (written p), err.
    + intros [= ->]. now elim (Hne code).
Qed.

(** X18 at work: the refused login. *)
Lemma main_exit_code_witness :
  fst (main Demo.locked Demo.args (start Demo.env 0)) = Exits 1 /\
  1 = 1 /\
  ((exists msg,
       (msg = flagsRequired \/ msg = envRequired) /\
       calls (snd (main Demo.locked Demo.args (start Demo.env 0))) = [] /\
       written (snd (main Demo.locked Demo.args (start Demo.env 0)))
       = [(Stdout, msg ++ newline)])
   \/
   (exists before err,
       written (snd (main Demo.locked Demo.args (start Demo.env 0)))
       = (before ++ [(Stderr, ("error: " ++ err ++ newline)%string)])%list)).
Proof.
  assert (H : fst (main Demo.locked Demo.args (start Demo.env 0)) = Exits 1)
    by reflexivity.
  split; [exact H|].
  exact (main_exit_code nat Demo.locked Demo.args Demo.env 0 1 H).
Defined.
